(** * Windows device-discovery and identity resolution of hidapi-rs

    A shallow embedding of [src/src/windows_native.rs]: the identifier
    token parser, the two-phase property resolver, the bus classifier
    ([get_internal_info]) and the USB and Bluetooth LE identity resolvers
    ([get_usb_info], [get_ble_info]).

    UTF-16 code units ([u16]) and bytes ([u8]) are [Z] values; the platform
    (configuration manager calls) is a record of functions. *)

From Stdlib Require Import String Ascii ZArith List Bool Lia.
Import ListNotations.
Open Scope Z_scope.

(* ------------------------------------------------------------------ *)
(** ** Slices and characters *)

(** [split(|c| *c == 0)] on a slice: the segments between separators.
    The empty slice has one (empty) segment, and a trailing separator
    yields a trailing empty segment. *)
Fixpoint split_zero_aux (cur : list Z) (l : list Z) : list (list Z) :=
  match l with
  | [] => [rev cur]
  | c :: r => if c =? 0 then rev cur :: split_zero_aux [] r
              else split_zero_aux (c :: cur) r
  end.

Definition split_zero (l : list Z) : list (list Z) := split_zero_aux [] l.

Definition is_high_surrogate (u : Z) : bool := (0xD800 <=? u) && (u <=? 0xDBFF).
Definition is_low_surrogate (u : Z) : bool := (0xDC00 <=? u) && (u <=? 0xDFFF).

(** One item of [char::decode_utf16]: a decoded scalar value or the
    unpaired surrogate that failed to decode. *)
Inductive decoded := DChar (c : Z) | DErr (u : Z).

(** [char::decode_utf16]: a high surrogate followed by a low surrogate is
    one character; any other surrogate is an error item. *)
Fixpoint decode_utf16 (l : list Z) : list decoded :=
  match l with
  | [] => []
  | u :: r =>
      if is_high_surrogate u then
        match r with
        | v :: r' =>
            if is_low_surrogate v then
              DChar (0x10000 + (u - 0xD800) * 0x400 + (v - 0xDC00)) :: decode_utf16 r'
            else DErr u :: decode_utf16 r
        | [] => [DErr u]
        end
      else if is_low_surrogate u then DErr u :: decode_utf16 r
      else DChar u :: decode_utf16 r
  end.

Definition REPLACEMENT_CHARACTER : Z := 0xFFFD.

(** [r.unwrap_or(char::REPLACEMENT_CHARACTER)] *)
Definition unwrap_or_replacement (d : decoded) : Z :=
  match d with DChar c => c | DErr _ => REPLACEMENT_CHARACTER end.

(** [to_ascii_lowercase] on a [char] (only ASCII letters change). *)
Definition char_to_ascii_lowercase (c : Z) : Z :=
  if (65 <=? c) && (c <=? 90) then c + 32 else c.

(** [char::eq_ignore_ascii_case] *)
Definition eq_ignore_ascii_case (l r : Z) : bool :=
  char_to_ascii_lowercase l =? char_to_ascii_lowercase r.

(** [u8::to_ascii_uppercase] *)
Definition u8_to_ascii_uppercase (b : Z) : Z :=
  if (97 <=? b) && (b <=? 122) then b - 32 else b.

(** [char::to_digit(16)] *)
Definition to_digit16 (c : Z) : option Z :=
  if (48 <=? c) && (c <=? 57) then Some (c - 48)
  else if (65 <=? c) && (c <=? 70) then Some (c - 55)
  else if (97 <=? c) && (c <=? 102) then Some (c - 87)
  else None.

(** Patterns are ASCII string literals in the source, so [encode_utf16]
    and [chars] both give their bytes. *)
Definition pattern_units (s : string) : list Z :=
  map (fun a => Z.of_nat (nat_of_ascii a)) (list_ascii_of_string s).

(* ------------------------------------------------------------------ *)
(** ** Identifier token parser *)

(** [to_upper]: every code unit that fits in a [u8] is ASCII-uppercased. *)
Definition to_upper (u16str : list Z) : list Z :=
  map (fun c => if (0 <=? c) && (c <=? 255) then u8_to_ascii_uppercase c else c)
      u16str.

(** [zip(..).all(|(l, r)| l == r)] *)
Fixpoint zip_all_eq (l r : list Z) : bool :=
  match l, r with
  | a :: l', b :: r' => (a =? b) && zip_all_eq l' r'
  | _, _ => true
  end.

(** [slice.windows(n).enumerate()] from index [i]: the windows of width
    [n] and their positions.  [windows(0)] panics in Rust; every caller
    passes a non-empty literal token. *)
Fixpoint windows_from (n : nat) (i : nat) (l : list Z) : list (nat * list Z) :=
  match l with
  | [] => []
  | _ :: r =>
      if Nat.leb n (length l) then (i, firstn n l) :: windows_from n (S i) r
      else []
  end.

(** [find_first_upper_case] *)
Definition find_first_upper_case (u16str : list Z) (pattern : string) : option nat :=
  let p := pattern_units pattern in
  match filter (fun w => zip_all_eq (snd w) p) (windows_from (length p) 0 u16str) with
  | (i, _) :: _ => Some i
  | [] => None
  end.

(** [decode_utf16(..).map(unwrap_or(REPLACEMENT_CHARACTER)).zip(pattern.chars())
     .all(eq_ignore_ascii_case)] *)
Fixpoint zip_all_ignore_case (l r : list Z) : bool :=
  match l, r with
  | a :: l', b :: r' => eq_ignore_ascii_case a b && zip_all_ignore_case l' r'
  | _, _ => true
  end.

(** [starts_with_ignore_case] *)
Definition starts_with_ignore_case (utf16str : list Z) (pattern : string) : bool :=
  zip_all_ignore_case (map unwrap_or_replacement (decode_utf16 utf16str))
                      (pattern_units pattern).

(** [map_while(|c| c.ok().and_then(|c| c.to_digit(16)))] *)
Fixpoint hex_digits (l : list decoded) : list Z :=
  match l with
  | DChar c :: r => match to_digit16 c with Some d => d :: hex_digits r | None => [] end
  | _ => []
  end.

Definition u32_wrap (z : Z) : Z := z mod 2 ^ 32.

(** [reduce(|l, r| l * 16 + r)] in [u32]; the arithmetic wraps as in an
    optimised build. *)
Definition reduce_hex (ds : list Z) : option Z :=
  match ds with
  | [] => None
  | d :: r => Some (fold_left (fun l r => u32_wrap (l * 16 + r)) r d)
  end.

(** [extract_int_token_value] *)
Definition extract_int_token_value (u16str : list Z) (token : string) : option Z :=
  match find_first_upper_case u16str token with
  | None => None
  | Some i =>
      let start := (i + length (pattern_units token))%nat in
      reduce_hex (hex_digits (decode_utf16 (skipn start u16str)))
  end.

(** Valid UTF-16 text: [String::from_utf16] succeeds. *)
Definition valid_utf16 (l : list Z) : bool :=
  forallb (fun d => match d with DChar _ => true | DErr _ => false end) (decode_utf16 l).

(** [WcharString] *)
Inductive WcharString :=
| WString (units : list Z)   (** decoded text, kept as its code units *)
| WRaw (units : list Z)      (** code units that did not decode *)
| WNone.

(** [u16str_to_wstring] *)
Definition u16str_to_wstring (u16str : list Z) : WcharString :=
  if valid_utf16 u16str then WString u16str else WRaw u16str.

(** [s.map_or(true, str::is_empty)] on [manufacturer_string()] and friends,
    which give [Some] only for the text variant. *)
Definition wstring_is_empty (w : WcharString) : bool :=
  match w with
  | WString s => match s with [] => true | _ => false end
  | _ => true
  end.

(* ------------------------------------------------------------------ *)
(** ** Panics, the platform and the property resolver *)

(** A computation that returns or panics ([assert!], [unwrap], a failed
    [bytemuck] cast). *)
Inductive run (A : Type) : Type :=
| Ok (a : A)
| Panicked.
Arguments Ok {A} a.
Arguments Panicked {A}.

(** [CONFIGRET] codes the source distinguishes. *)
Inductive CONFIGRET := CR_SUCCESS | CR_BUFFER_SMALL | CR_OTHER (code : Z).

Definition cr_eqb (a b : CONFIGRET) : bool :=
  match a, b with
  | CR_SUCCESS, CR_SUCCESS | CR_BUFFER_SMALL, CR_BUFFER_SMALL => true
  | CR_OTHER x, CR_OTHER y => x =? y
  | _, _ => false
  end.

(** The property keys the source queries. *)
Inductive PropKey :=
| DEVPKEY_Device_InstanceId
| DEVPKEY_Device_CompatibleIds
| DEVPKEY_Device_HardwareIds
| DEVPKEY_Device_Manufacturer
| DEVPKEY_NAME
| PKEY_DeviceInterface_Bluetooth_DeviceAddress
| PKEY_DeviceInterface_Bluetooth_Manufacturer
| PKEY_DeviceInterface_Bluetooth_ModelNumber.

Definition DEVPROP_TYPE_STRING : Z := 0x12.
Definition DEVPROP_TYPE_STRING_LIST : Z := 0x2012.

(** The configuration-manager calls.  A property call with a null buffer
    gives [(status, property type, required length)]; with a buffer of
    [len] bytes it gives [(status, written length, buffer contents)]. *)
Record Platform := {
  cm_get_device_interface_property_size : list Z -> PropKey -> CONFIGRET * Z * Z;
  cm_get_device_interface_property : list Z -> PropKey -> Z -> CONFIGRET * Z * list Z;
  cm_get_devnode_property_size : Z -> PropKey -> CONFIGRET * Z * Z;
  cm_get_devnode_property : Z -> PropKey -> Z -> CONFIGRET * Z * list Z;
  cm_locate_devnode : list Z -> CONFIGRET * Z;
  cm_get_parent : Z -> CONFIGRET * Z
}.

(** [vec![0u8; len]] after the platform wrote into it: exactly [len] bytes. *)
Definition resize (n : nat) (l : list Z) : list Z := firstn n (l ++ repeat 0 n).

Section PropertyResolver.
Variable pl : Platform.

(** [get_device_interface_property] *)
Definition get_device_interface_property (interface_path : list Z) (property_key : PropKey)
    (expected_property_type : Z) : run (option (list Z)) :=
  let '(cr, property_type, len) :=
    cm_get_device_interface_property_size pl interface_path property_key in
  if negb (cr_eqb cr CR_BUFFER_SMALL && (property_type =? expected_property_type))
  then Ok None
  else
    let '(cr, len', buf) := cm_get_device_interface_property pl interface_path property_key len in
    if negb (len =? len') then Panicked
    else if cr_eqb cr CR_SUCCESS then Ok (Some (resize (Z.to_nat len) buf))
    else Ok None.

(** [get_devnode_property] *)
Definition get_devnode_property (dev_node : Z) (property_key : PropKey)
    (expected_property_type : Z) : run (option (list Z)) :=
  let '(cr, property_type, len) := cm_get_devnode_property_size pl dev_node property_key in
  if negb (cr_eqb cr CR_BUFFER_SMALL && (property_type =? expected_property_type))
  then Ok None
  else
    let '(cr, len', buf) := cm_get_devnode_property pl dev_node property_key len in
    if negb (len =? len') then Panicked
    else if cr_eqb cr CR_SUCCESS then Ok (Some (resize (Z.to_nat len) buf))
    else Ok None.

(** [get_dev_node_parent] *)
Definition get_dev_node_parent (dev_node : Z) : option Z :=
  match cm_get_parent pl dev_node with
  | (CR_SUCCESS, parent) => Some parent
  | _ => None
  end.

End PropertyResolver.

(** [bytemuck::cast_slice::<u8, u16>] (little endian); it panics when the
    byte length is odd. *)
Fixpoint cast_u16_aux (l : list Z) : list Z :=
  match l with
  | lo :: hi :: r => (lo + 256 * hi) :: cast_u16_aux r
  | _ => []
  end.

Definition cast_u16 (bytes : list Z) : run (list Z) :=
  if Nat.even (length bytes) then Ok (cast_u16_aux bytes) else Panicked.

(* ------------------------------------------------------------------ *)
(** ** Device records *)

(** The crate's public [BusType] (declared in the crate root); these are
    the variants the conversion from [InternalBuyType] produces. *)
Inductive BusType := Unknown | Usb | Bluetooth | I2c | Spi.

(** [InternalBuyType] *)
Inductive InternalBuyType :=
| IUnknown | IUsb | IBluetooth | IBluetoothLE | II2c | ISpi.

(** [impl From<InternalBuyType> for BusType] *)
Definition bus_type_of_internal (value : InternalBuyType) : BusType :=
  match value with
  | IUnknown => Unknown
  | IUsb => Usb
  | IBluetooth => Bluetooth
  | IBluetoothLE => Bluetooth
  | II2c => I2c
  | ISpi => Spi
  end.

(** [DeviceInfo]: [u16] fields and the [i32] interface number as [Z]. *)
Record DeviceInfo := mkDeviceInfo {
  path : list Z;
  vendor_id : Z;
  product_id : Z;
  serial_number : WcharString;
  release_number : Z;
  manufacturer_string : WcharString;
  product_string : WcharString;
  usage_page : Z;
  usage : Z;
  interface_number : Z;
  bus_type : BusType
}.

Definition set_serial_number (s : WcharString) (d : DeviceInfo) : DeviceInfo :=
  {| path := path d; vendor_id := vendor_id d; product_id := product_id d;
     serial_number := s; release_number := release_number d;
     manufacturer_string := manufacturer_string d; product_string := product_string d;
     usage_page := usage_page d; usage := usage d;
     interface_number := interface_number d; bus_type := bus_type d |}.

Definition set_release_number (r : Z) (d : DeviceInfo) : DeviceInfo :=
  {| path := path d; vendor_id := vendor_id d; product_id := product_id d;
     serial_number := serial_number d; release_number := r;
     manufacturer_string := manufacturer_string d; product_string := product_string d;
     usage_page := usage_page d; usage := usage d;
     interface_number := interface_number d; bus_type := bus_type d |}.

Definition set_manufacturer_string (s : WcharString) (d : DeviceInfo) : DeviceInfo :=
  {| path := path d; vendor_id := vendor_id d; product_id := product_id d;
     serial_number := serial_number d; release_number := release_number d;
     manufacturer_string := s; product_string := product_string d;
     usage_page := usage_page d; usage := usage d;
     interface_number := interface_number d; bus_type := bus_type d |}.

Definition set_product_string (s : WcharString) (d : DeviceInfo) : DeviceInfo :=
  {| path := path d; vendor_id := vendor_id d; product_id := product_id d;
     serial_number := serial_number d; release_number := release_number d;
     manufacturer_string := manufacturer_string d; product_string := s;
     usage_page := usage_page d; usage := usage d;
     interface_number := interface_number d; bus_type := bus_type d |}.

Definition set_interface_number (n : Z) (d : DeviceInfo) : DeviceInfo :=
  {| path := path d; vendor_id := vendor_id d; product_id := product_id d;
     serial_number := serial_number d; release_number := release_number d;
     manufacturer_string := manufacturer_string d; product_string := product_string d;
     usage_page := usage_page d; usage := usage d;
     interface_number := n; bus_type := bus_type d |}.

Definition set_bus_type (b : BusType) (d : DeviceInfo) : DeviceInfo :=
  {| path := path d; vendor_id := vendor_id d; product_id := product_id d;
     serial_number := serial_number d; release_number := release_number d;
     manufacturer_string := manufacturer_string d; product_string := product_string d;
     usage_page := usage_page d; usage := usage d;
     interface_number := interface_number d; bus_type := b |}.

(** [x as u16] and [x as i32] for a [u32] value. *)
Definition u32_as_u16 (x : Z) : Z := x mod 2 ^ 16.
Definition u32_as_i32 (x : Z) : Z := if x <? 2 ^ 31 then x else x - 2 ^ 32.

(* ------------------------------------------------------------------ *)
(** ** The resolver monad: [&mut DeviceInfo] threaded through a function
    returning [Option<T>], whose [?] returns [None] early, and which may
    panic. *)

Definition M (A : Type) : Type := DeviceInfo -> run (DeviceInfo * option A).

Definition ret {A} (a : A) : M A := fun d => Ok (d, Some a).

Definition bind {A B} (m : M A) (k : A -> M B) : M B :=
  fun d => match m d with
           | Ok (d', Some a) => k a d'
           | Ok (d', None) => Ok (d', None)
           | Panicked => Panicked
           end.

Notation "x <- m ;; k" := (bind m (fun x => k))
  (at level 61, m at next level, right associativity).
Notation "m ;; k" := (bind m (fun _ => k)) (at level 61, right associativity).

(** [return None] *)
Definition early_return {A} : M A := fun d => Ok (d, None).

(** [e?] on a (possibly panicking) [Option]. *)
Definition try_opt {A} (e : run (option A)) : M A :=
  fun d => match e with
           | Ok (Some a) => Ok (d, Some a)
           | Ok None => Ok (d, None)
           | Panicked => Panicked
           end.

(** A call that does not return early. *)
Definition lift {A} (e : run A) : M A :=
  fun d => match e with Ok a => Ok (d, Some a) | Panicked => Panicked end.

Definition get_dev : M DeviceInfo := fun d => Ok (d, Some d).
Definition modify (f : DeviceInfo -> DeviceInfo) : M unit := fun d => Ok (f d, Some tt).

(** A call statement [f(dev, ..);] whose [Option<()>] result is dropped. *)
Definition discard (m : M unit) : M unit :=
  fun d => match m d with Ok (d', _) => Ok (d', Some tt) | Panicked => Panicked end.

(* ------------------------------------------------------------------ *)
(** ** Bus classifier and identity resolvers *)

(** The arms of the [match compatible_id] in [get_internal_info]. *)
Definition classify_compatible_id (id : list Z) : option InternalBuyType :=
  if starts_with_ignore_case id "USB" then Some IUsb
  else if starts_with_ignore_case id "BTHENUM" then Some IBluetooth
  else if starts_with_ignore_case id "BTHLEDEVICE" then Some IBluetoothLE
  else if starts_with_ignore_case id "PNP0C50" then Some II2c
  else if starts_with_ignore_case id "PNP0C51" then Some ISpi
  else None.

(** [.filter_map(f).next()] *)
Fixpoint filter_map_next {A B} (f : A -> option B) (l : list A) : option B :=
  match l with
  | [] => None
  | x :: r => match f x with Some b => Some b | None => filter_map_next f r end
  end.

(** [compatible_ids.split(0).filter_map(..).next().unwrap_or(Unknown)] *)
Definition bus_of_compatible_ids (compatible_ids : list Z) : InternalBuyType :=
  match filter_map_next classify_compatible_id (split_zero compatible_ids) with
  | Some t => t
  | None => IUnknown
  end.

(** The body of the [for hardware_id in ..] loop of [get_usb_info]. *)
Definition hardware_id_step (dev : DeviceInfo) (hardware_id : list Z) : DeviceInfo :=
  let hardware_id := to_upper hardware_id in
  let dev :=
    if release_number dev =? 0 then
      match extract_int_token_value hardware_id "REV_" with
      | Some r => set_release_number (u32_as_u16 r) dev
      | None => dev
      end
    else dev in
  if interface_number dev =? -1 then
    match extract_int_token_value hardware_id "MI_" with
    | Some i => set_interface_number (u32_as_i32 i) dev
    | None => dev
    end
  else dev.

Definition scan_hardware_ids (hardware_ids : list (list Z)) (dev : DeviceInfo) : DeviceInfo :=
  fold_left hardware_id_step hardware_ids dev.

(** Elements up to (excluding) the first one satisfying [pred]. *)
Fixpoint take_until (pred : Z -> bool) (l : list Z) : list Z :=
  match l with
  | [] => []
  | c :: r => if pred c then [] else c :: take_until pred r
  end.

(** [s.rsplit(pred).next()]: the slice after the last element satisfying
    [pred] (the whole slice when none does). *)
Definition rsplit_next (pred : Z -> bool) (s : list Z) : list Z :=
  rev (take_until pred (rev s)).

(** [s.iter().rposition(pred)] *)
Fixpoint rposition_from (pred : Z -> bool) (i : nat) (s : list Z) (acc : option nat)
    : option nat :=
  match s with
  | [] => acc
  | c :: r => rposition_from pred (S i) r (if pred c then Some i else acc)
  end.

Definition rposition (pred : Z -> bool) (s : list Z) : option nat :=
  rposition_from pred 0 s None.

Definition AMPERSAND : Z := 38.
Definition BACKSLASH : Z := 92.

(** [device_id.rsplit(|c| *c != b'&' as u16).next()
       .and_then(|s| s.iter().rposition(|c| *c != b'\\' as u16))] *)
Definition serial_start (device_id : list Z) : option nat :=
  rposition (fun c => negb (c =? BACKSLASH))
            (rsplit_next (fun c => negb (c =? AMPERSAND)) device_id).

Section Resolvers.
Variable pl : Platform.

(** [get_usb_info] *)
Definition get_usb_info (dev_node0 : Z) : M unit :=
  device_id <- try_opt (get_devnode_property pl dev_node0 DEVPKEY_Device_InstanceId DEVPROP_TYPE_STRING) ;;
  device_id <- lift (cast_u16 device_id) ;;
  let device_id := to_upper device_id in
  dev_node <- (match extract_int_token_value device_id "IG_" with
               | Some _ => try_opt (Ok (get_dev_node_parent pl dev_node0))
               | None => ret dev_node0
               end) ;;
  hardware_ids <- try_opt (get_devnode_property pl dev_node DEVPKEY_Device_HardwareIds DEVPROP_TYPE_STRING_LIST) ;;
  hardware_ids <- lift (cast_u16 hardware_ids) ;;
  modify (scan_hardware_ids (split_zero hardware_ids)) ;;
  dev <- get_dev ;;
  (if wstring_is_empty (manufacturer_string dev) then
     m <- lift (get_devnode_property pl dev_node DEVPKEY_Device_Manufacturer DEVPROP_TYPE_STRING) ;;
     match m with
     | Some manufacturer_string =>
         s <- lift (cast_u16 manufacturer_string) ;;
         modify (set_manufacturer_string (u16str_to_wstring s))
     | None => ret tt
     end
   else ret tt) ;;
  dev <- get_dev ;;
  (if wstring_is_empty (serial_number dev) then
     usb_dev_node <- (if negb (interface_number dev =? -1)
                      then try_opt (Ok (get_dev_node_parent pl dev_node))
                      else ret dev_node) ;;
     device_id <- try_opt (get_devnode_property pl usb_dev_node DEVPKEY_Device_InstanceId DEVPROP_TYPE_STRING) ;;
     device_id <- lift (cast_u16 device_id) ;;
     match serial_start device_id with
     | Some start => modify (set_serial_number (u16str_to_wstring (skipn (start + 1) device_id)))
     | None => ret tt
     end
   else ret tt) ;;
  dev <- get_dev ;;
  (if interface_number dev =? -1 then modify (set_interface_number 0) else ret tt) ;;
  ret tt.

(** [get_ble_info] *)
Definition get_ble_info (dev_node : Z) : M unit :=
  dev <- get_dev ;;
  (if wstring_is_empty (manufacturer_string dev) then
     m <- lift (get_devnode_property pl dev_node PKEY_DeviceInterface_Bluetooth_Manufacturer DEVPROP_TYPE_STRING) ;;
     match m with
     | Some s => s <- lift (cast_u16 s) ;; modify (set_manufacturer_string (u16str_to_wstring s))
     | None => ret tt
     end
   else ret tt) ;;
  dev <- get_dev ;;
  (if wstring_is_empty (serial_number dev) then
     m <- lift (get_devnode_property pl dev_node PKEY_DeviceInterface_Bluetooth_DeviceAddress DEVPROP_TYPE_STRING) ;;
     match m with
     | Some s => s <- lift (cast_u16 s) ;; modify (set_serial_number (u16str_to_wstring s))
     | None => ret tt
     end
   else ret tt) ;;
  dev <- get_dev ;;
  (if wstring_is_empty (product_string dev) then
     m <- lift (get_devnode_property pl dev_node PKEY_DeviceInterface_Bluetooth_ModelNumber DEVPROP_TYPE_STRING) ;;
     m <- (match m with
           | Some s => ret (Some s)
           | None =>
               match get_dev_node_parent pl dev_node with
               | Some parent_dev_node => lift (get_devnode_property pl parent_dev_node DEVPKEY_NAME DEVPROP_TYPE_STRING)
               | None => ret None
               end
           end) ;;
     match m with
     | Some s => s <- lift (cast_u16 s) ;; modify (set_product_string (u16str_to_wstring s))
     | None => ret tt
     end
   else ret tt) ;;
  ret tt.

(** [get_internal_info] *)
Definition get_internal_info (interface_path : list Z) : M unit :=
  device_id <- try_opt (get_device_interface_property pl interface_path DEVPKEY_Device_InstanceId DEVPROP_TYPE_STRING) ;;
  match cm_locate_devnode pl device_id with
  | (CR_SUCCESS, node) =>
      dev_node <- try_opt (Ok (get_dev_node_parent pl node)) ;;
      compatible_ids <- try_opt (get_devnode_property pl dev_node DEVPKEY_Device_CompatibleIds DEVPROP_TYPE_STRING_LIST) ;;
      compatible_ids <- lift (cast_u16 compatible_ids) ;;
      let bus_type := bus_of_compatible_ids compatible_ids in
      modify (set_bus_type (bus_type_of_internal bus_type)) ;;
      (match bus_type with
       | IUsb => discard (get_usb_info dev_node)
       | IBluetoothLE => discard (get_ble_info dev_node)
       | _ => ret tt
       end) ;;
      ret tt
  | _ => early_return
  end.

End Resolvers.

(** What [get_device_info] reads from the open handle before the
    device-tree walk: [HidD_GetAttributes], [HidP_GetCaps] and the three
    [read_string] calls. *)
Record FastPath := {
  attrib_VendorID : Z;
  attrib_ProductID : Z;
  attrib_VersionNumber : Z;
  caps_UsagePage : Z;
  caps_Usage : Z;
  hid_serial_number : WcharString;
  hid_manufacturer_string : WcharString;
  hid_product_string : WcharString
}.

(** [get_device_info]: the record starts with interface number [-1] and
    bus type [Unknown]; the result of [get_internal_info] is dropped.
    [String::from_utf16(path).unwrap()] panics on invalid UTF-16, and
    [CString::new(..).unwrap()] panics when the text holds a NUL: the UTF-8
    of valid UTF-16 has a zero byte exactly where the path has the unit 0. *)
Definition get_device_info (pl : Platform) (interface_path : list Z) (fp : FastPath)
    : run DeviceInfo :=
  if negb (valid_utf16 interface_path) then Panicked else
  if existsb (fun c => c =? 0) interface_path then Panicked else
  let dev := {| path := interface_path;
                vendor_id := attrib_VendorID fp;
                product_id := attrib_ProductID fp;
                serial_number := hid_serial_number fp;
                release_number := attrib_VersionNumber fp;
                manufacturer_string := hid_manufacturer_string fp;
                product_string := hid_product_string fp;
                usage_page := caps_UsagePage fp;
                usage := caps_Usage fp;
                interface_number := -1;
                bus_type := Unknown |} in
  match get_internal_info pl interface_path dev with
  | Ok (dev', _) => Ok dev'
  | Panicked => Panicked
  end.

(* ------------------------------------------------------------------ *)
(** ** Enumeration: [open_device], [read_string] and the fast path *)

Definition INVALID_HANDLE_VALUE : Z := -1.
Definition GENERIC_READ : Z := 0x80000000.
Definition GENERIC_WRITE : Z := 0x40000000.

(** The calls made on a device interface and its handle.  [CreateFileW]
    gets the path and the access mask and gives a handle;
    [HidD_GetAttributes] gives [(VendorID, ProductID, VersionNumber)] or
    fails; [HidD_GetPreparsedData] gives the preparsed data or fails;
    [HidP_GetCaps] gives [(UsagePage, Usage)]; each [HidD_Get*String] call
    gives its [BOOLEAN] result and the units it wrote into the buffer. *)
Record HidApi := {
  create_file : list Z -> Z -> Z;
  hidd_get_attributes : Z -> option (Z * Z * Z);
  hidd_get_preparsed_data : Z -> option Z;
  hidp_get_caps : Z -> Z * Z;
  hidd_get_serial_number_string : Z -> bool * list Z;
  hidd_get_manufacturer_string : Z -> bool * list Z;
  hidd_get_product_string : Z -> bool * list Z
}.

(** [open_device] *)
Definition open_device (api : HidApi) (path : list Z) (open_rw : bool) : option Z :=
  let handle := create_file api path (if open_rw then Z.lor GENERIC_WRITE GENERIC_READ else 0) in
  if handle =? INVALID_HANDLE_VALUE then None else Some handle.

(** [read_string]: the call writes into [[0u16; 256]]; on success the
    first NUL-delimited segment is decoded, on failure the result is the
    empty string. *)
Definition read_string (func : Z -> bool * list Z) (handle : Z) : WcharString :=
  let '(ok, written) := func handle in
  let string := resize 256 written in
  if ok then
    match map u16str_to_wstring (split_zero string) with
    | w :: _ => w
    | [] => WString []
    end
  else WString [].

(** The fast-path reads of [get_device_info]: a failed [HidD_GetAttributes]
    leaves the zeroed struct, and without preparsed data the caps stay
    zeroed. *)
Definition fast_path_of (api : HidApi) (handle : Z) : FastPath :=
  let '(vid, pid, version) :=
    match hidd_get_attributes api handle with Some a => a | None => (0, 0, 0) end in
  let '(usage_page, usage) :=
    match hidd_get_preparsed_data api handle with
    | Some pp_data => hidp_get_caps api pp_data
    | None => (0, 0)
    end in
  {| attrib_VendorID := vid; attrib_ProductID := pid; attrib_VersionNumber := version;
     caps_UsagePage := usage_page; caps_Usage := usage;
     hid_serial_number := read_string (hidd_get_serial_number_string api) handle;
     hid_manufacturer_string := read_string (hidd_get_manufacturer_string api) handle;
     hid_product_string := read_string (hidd_get_product_string api) handle |}.

(** The [for device_interface in ..] loop of [get_hid_device_info_vector]:
    an interface that opens is read and its handle closed (closing has no
    effect on the result); one that does not open is skipped. *)
Fixpoint collect_devices (pl : Platform) (api : HidApi) (device_interfaces : list (list Z))
    (device_vector : list DeviceInfo) : run (list DeviceInfo) :=
  match device_interfaces with
  | [] => Ok device_vector
  | device_interface :: rest =>
      match open_device api device_interface false with
      | Some device_handle =>
          match get_device_info pl device_interface (fast_path_of api device_handle) with
          | Ok d => collect_devices pl api rest (device_vector ++ [d])
          | Panicked => Panicked
          end
      | None => collect_devices pl api rest device_vector
      end
  end.

(** [get_hid_device_info_vector], given the list [get_interface_list]
    returns; its result is always [Ok] unless a call panics. *)
Definition get_hid_device_info_vector (pl : Platform) (api : HidApi) (interface_list : list Z)
    : run (list DeviceInfo) :=
  collect_devices pl api (split_zero interface_list) [].

(* ------------------------------------------------------------------ *)
(** ** [wchar_to_string] and the [HidDevice] wrappers *)

(** [char::from_u32] *)
Definition char_from_u32 (c : Z) : option Z :=
  if ((0xD800 <=? c) && (c <=? 0xDFFF)) || (0x110000 <=? c) then None else Some c.

Definition wchar_finish (char_vector raw_vector : list Z) (invalid_char : bool) : WcharString :=
  if negb invalid_char then WString char_vector else WRaw raw_vector.

(** The [while o(index) != 0] loop of [wchar_to_string] over the units
    from the pointer on ([wchar_t] is [u16] on Windows).  The units are
    those of a NUL-terminated string; the end of the list is read as its
    terminator. *)
Fixpoint wchar_loop (mem : list Z) (char_vector raw_vector : list Z) (invalid_char : bool)
    : WcharString :=
  match mem with
  | c :: rest =>
      if negb (c =? 0) then
        let raw_vector := raw_vector ++ [c] in
        if negb invalid_char then
          match char_from_u32 c with
          | Some ch => wchar_loop rest (char_vector ++ [ch]) raw_vector false
          | None => wchar_loop rest char_vector raw_vector true
          end
        else wchar_loop rest char_vector raw_vector invalid_char
      else wchar_finish char_vector raw_vector invalid_char
  | [] => wchar_finish char_vector raw_vector invalid_char
  end.

(** [wchar_to_string]; [None] is the null pointer. *)
Definition wchar_to_string (wstr : option (list Z)) : WcharString :=
  match wstr with
  | None => WNone
  | Some mem => wchar_loop mem [] [] false
  end.

(** The [HidError] variants the wrappers produce. *)
Inductive HidError :=
| HidApiError (message : list Z)
| HidApiErrorEmpty
| InvalidZeroSizeData
| IncompleteSendError (sent all : Z)
| SetBlockingModeError (mode : string).

Inductive HidResult (A : Type) : Type :=
| HOk (a : A)
| HErr (e : HidError).
Arguments HOk {A} a.
Arguments HErr {A} e.

(** The [ffi] calls on a device: the string [hid_error] points at ([None]:
    null) and the [c_int] results of [hid_write],
    [hid_send_feature_report] and [hid_set_nonblocking]. *)
Record HidFfi := {
  hid_error : option (list Z);
  hid_write : list Z -> Z;
  hid_send_feature_report : list Z -> Z;
  hid_set_nonblocking : Z -> Z
}.

(** A [c_int] result, and [res as usize] on a 64-bit target. *)
Definition i32_of (z : Z) : Z := (z + 2 ^ 31) mod 2 ^ 32 - 2 ^ 31.
Definition usize_of_i32 (res : Z) : Z := res mod 2 ^ 64.

Section HidDevice.
Variable f : HidFfi.

(** [HidDevice::check_error] *)
Definition check_error : HidResult HidError :=
  match wchar_to_string (hid_error f) with
  | WString s => HOk (HidApiError s)
  | _ => HErr HidApiErrorEmpty
  end.

(** [HidDevice::check_size] *)
Definition check_size (res : Z) : HidResult Z :=
  if res =? -1 then
    match check_error with
    | HOk err => HErr err
    | HErr e => HErr e
    end
  else HOk (usize_of_i32 res).

(** [write] *)
Definition write (data : list Z) : HidResult Z :=
  match data with
  | [] => HErr InvalidZeroSizeData
  | _ => check_size (i32_of (hid_write f data))
  end.

(** [send_feature_report] *)
Definition send_feature_report (data : list Z) : HidResult unit :=
  match data with
  | [] => HErr InvalidZeroSizeData
  | _ =>
      match check_size (i32_of (hid_send_feature_report f data)) with
      | HErr e => HErr e
      | HOk res =>
          if negb (res =? Z.of_nat (length data))
          then HErr (IncompleteSendError res (Z.of_nat (length data)))
          else HOk tt
      end
  end.

(** [set_blocking_mode] *)
Definition set_blocking_mode (blocking : bool) : HidResult unit :=
  let res := i32_of (hid_set_nonblocking f (if blocking then 0 else 1)) in
  if res =? -1 then
    HErr (SetBlockingModeError (if blocking then "blocking" else "not blocking"))
  else HOk tt.

End HidDevice.

(** The code units a [WcharString] holds. *)
Definition wstring_units (w : WcharString) : list Z :=
  match w with WString u | WRaw u => u | WNone => [] end.

(** Re-joining segments with NUL separators: the inverse of [split_zero]. *)
Fixpoint join_zero (segs : list (list Z)) : list Z :=
  match segs with
  | [] => []
  | [s] => s
  | s :: r => s ++ 0 :: join_zero r
  end.

(** Whether a unit is a UTF-16 surrogate. *)
Definition is_surrogate (c : Z) : bool := (0xD800 <=? c) && (c <=? 0xDFFF).

(** The identity a resolver must not disturb: the fast-path identifiers,
    and every string that was already non-empty text. *)
Definition keeps_identity (d0 d : DeviceInfo) : Prop :=
  path d = path d0 /\ vendor_id d = vendor_id d0 /\ product_id d = product_id d0 /\
  usage_page d = usage_page d0 /\ usage d = usage d0 /\
  (wstring_is_empty (manufacturer_string d0) = false ->
   manufacturer_string d = manufacturer_string d0) /\
  (wstring_is_empty (serial_number d0) = false -> serial_number d = serial_number d0) /\
  (wstring_is_empty (product_string d0) = false -> product_string d = product_string d0).

(* ------------------------------------------------------------------ *)
(** ** A table-driven platform for concrete device trees *)

Scheme Equality for PropKey.

Definition list_Z_eqb (a b : list Z) : bool :=
  if list_eq_dec Z.eq_dec a b then true else false.

(** A device tree: the interface properties, the properties of each node
    as [(type, bytes)], the instance ids that locate a node, and parents. *)
Record FakeTree := {
  ft_interface_props : list (PropKey * (Z * list Z));
  ft_devnode_props : list (Z * PropKey * (Z * list Z));
  ft_devnodes : list (list Z * Z);
  ft_parents : list (Z * Z)
}.

Definition CR_NO_SUCH_VALUE : CONFIGRET := CR_OTHER 0x25.

Definition lookup_key {A} (k : PropKey) (t : list (PropKey * A)) : option A :=
  option_map snd (find (fun e => PropKey_beq (fst e) k) t).

Definition lookup_node_key {A} (n : Z) (k : PropKey) (t : list (Z * PropKey * A)) : option A :=
  option_map snd (find (fun e => (fst (fst e) =? n) && PropKey_beq (snd (fst e)) k) t).

Definition size_reply (e : option (Z * list Z)) : CONFIGRET * Z * Z :=
  match e with
  | Some (ty, v) => (CR_BUFFER_SMALL, ty, Z.of_nat (length v))
  | None => (CR_NO_SUCH_VALUE, 0, 0)
  end.

Definition fetch_reply (e : option (Z * list Z)) (len : Z) : CONFIGRET * Z * list Z :=
  match e with
  | Some (_, v) => (CR_SUCCESS, Z.of_nat (length v), v)
  | None => (CR_NO_SUCH_VALUE, len, [])
  end.

Definition fake_platform (t : FakeTree) : Platform := {|
  cm_get_device_interface_property_size := fun _ k => size_reply (lookup_key k (ft_interface_props t));
  cm_get_device_interface_property := fun _ k len => fetch_reply (lookup_key k (ft_interface_props t)) len;
  cm_get_devnode_property_size := fun n k => size_reply (lookup_node_key n k (ft_devnode_props t));
  cm_get_devnode_property := fun n k len => fetch_reply (lookup_node_key n k (ft_devnode_props t)) len;
  cm_locate_devnode := fun id =>
    match find (fun e => list_Z_eqb (fst e) id) (ft_devnodes t) with
    | Some (_, n) => (CR_SUCCESS, n)
    | None => (CR_OTHER 0xD, 0)
    end;
  cm_get_parent := fun n =>
    match find (fun e => fst e =? n) (ft_parents t) with
    | Some (_, p) => (CR_SUCCESS, p)
    | None => (CR_OTHER 0xD, 0)
    end
|}.

(** UTF-16LE bytes of an ASCII string, a [DEVPROP_TYPE_STRING] value
    (NUL-terminated) and a [DEVPROP_TYPE_STRING_LIST] value (each entry
    NUL-terminated, then a final NUL). *)
Definition utf16le (s : string) : list Z :=
  flat_map (fun a => [Z.of_nat (nat_of_ascii a); 0]) (list_ascii_of_string s).

Definition prop_string (s : string) : Z * list Z :=
  (DEVPROP_TYPE_STRING, utf16le s ++ [0; 0]).

Definition prop_string_list (ss : list string) : Z * list Z :=
  (DEVPROP_TYPE_STRING_LIST, flat_map (fun s => utf16le s ++ [0; 0]) ss ++ [0; 0]).

Definition empty_wstring : WcharString := WString [].

Definition hid_interface_path : list Z :=
  pattern_units "\\?\HID#VID_1234&PID_5678&MI_01#7&1A2B&0&0000#{4D1E55B2-F16F-11CF-88CB-001111000030}".

(** Fast-path results with no strings, and with a serial number. *)
Definition fp_no_strings : FastPath := {|
  attrib_VendorID := 0x1234; attrib_ProductID := 0x5678; attrib_VersionNumber := 0;
  caps_UsagePage := 1; caps_Usage := 2;
  hid_serial_number := empty_wstring; hid_manufacturer_string := empty_wstring;
  hid_product_string := empty_wstring |}.

Definition fp_with_serial : FastPath := {|
  attrib_VendorID := 0x1234; attrib_ProductID := 0x5678; attrib_VersionNumber := 0;
  caps_UsagePage := 1; caps_Usage := 2;
  hid_serial_number := WString (pattern_units "XYZ"); hid_manufacturer_string := empty_wstring;
  hid_product_string := empty_wstring |}.

(** A device tree: HID interface (node 10) under a device node 20 with the
    given compatible and hardware ids, under a parent node 30 whose
    instance id carries the serial number "ABC123". *)
Definition tree_with (compatible : list string) (hardware : option (list string)) : FakeTree := {|
  ft_interface_props :=
    [(DEVPKEY_Device_InstanceId, prop_string "HID\VID_1234&PID_5678&MI_01\7&1A2B&0&0000")];
  ft_devnode_props :=
    [(20, DEVPKEY_Device_CompatibleIds, prop_string_list compatible);
     (20, DEVPKEY_Device_InstanceId, prop_string "USB\VID_1234&PID_5678&MI_01\6&ABCDEF&0&0001");
     (20, DEVPKEY_Device_Manufacturer, prop_string "Acme");
     (20, PKEY_DeviceInterface_Bluetooth_Manufacturer, prop_string "Acme");
     (30, DEVPKEY_Device_InstanceId, prop_string "USB\VID_1234&PID_5678\ABC123");
     (30, DEVPKEY_NAME, prop_string "Acme Keyboard")]
    ++ match hardware with
       | Some hs => [(20, DEVPKEY_Device_HardwareIds, prop_string_list hs)]
       | None => []
       end;
  ft_devnodes := [(utf16le "HID\VID_1234&PID_5678&MI_01\7&1A2B&0&0000" ++ [0; 0], 10)];
  ft_parents := [(10, 20); (20, 30)]
|}.

Definition usb_composite_tree : FakeTree :=
  tree_with (["USB\Class_03&SubClass_01&Prot_01"; "USB\Class_03&SubClass_01"; "USB\Class_03"]%string)
            (Some (["USB\VID_1234&PID_5678&REV_0100&MI_01"; "USB\VID_1234&PID_5678&MI_01"]%string)).

Definition usb_no_hardware_ids_tree : FakeTree :=
  tree_with (["USB\Class_03&SubClass_01&Prot_01"; "USB\Class_03"]%string) None.

Definition hid_only_tree : FakeTree :=
  tree_with (["HID_DEVICE_SYSTEM_MOUSE"; "HID_DEVICE_UP:0001_U:0002"; "HID_DEVICE"]%string)
            (Some (["HID\VID_1234&PID_5678"]%string)).

Definition ble_tree : FakeTree :=
  tree_with (["BTHLEDEVICE\{00001812-0000-1000-8000-00805F9B34FB}"]%string) None.

Definition bthenum_tree : FakeTree :=
  tree_with (["BTHENUM\{00001124-0000-1000-8000-00805F9B34FB}"]%string) None.

Definition rev_zero_tree : FakeTree :=
  tree_with (["USB\Class_03"]%string)
            (Some (["USB\VID_1234&PID_5678&REV_0000&MI_00"; "USB\VID_1234&PID_5678&REV_0200&MI_01"]%string)).

(** A handle layer for the fixtures: the empty path does not open. *)
Definition fake_api : HidApi := {|
  create_file := fun p _ => if (length p =? 0)%nat then INVALID_HANDLE_VALUE else 7;
  hidd_get_attributes := fun _ => Some (0x1234, 0x5678, 0x0100);
  hidd_get_preparsed_data := fun _ => Some 1;
  hidp_get_caps := fun _ => (1, 6);
  hidd_get_serial_number_string := fun _ => (false, []);
  hidd_get_manufacturer_string := fun _ => (true, pattern_units "Acme" ++ [0]);
  hidd_get_product_string := fun _ => (true, pattern_units "Keyboard" ++ [0])
|}.

(** One interface path, as [CM_Get_Device_Interface_ListW] gives it: each
    path NUL-terminated, then a final NUL. *)
Definition one_interface_list : list Z := hid_interface_path ++ [0; 0].

Definition ffi_with (err : option (list Z)) (res : Z) : HidFfi := {|
  hid_error := err; hid_write := fun _ => res; hid_send_feature_report := fun _ => res;
  hid_set_nonblocking := fun _ => res |}.

(** Whether [open_device] (read-only, as the enumeration opens) succeeds. *)
Definition opens (api : HidApi) (s : list Z) : bool :=
  match open_device api s false with Some _ => true | None => false end.

(** The search [find_first_upper_case] performs, from window position [i]. *)
Definition first_window (p : list Z) (i : nat) (l : list Z) : option nat :=
  match filter (fun w => zip_all_eq (snd w) p) (windows_from (length p) i l) with
  | (j, _) :: _ => Some j
  | [] => None
  end.

(** The value of a hexadecimal digit unit. *)
Definition hex_digit_value (c : Z) : Z :=
  match to_digit16 c with Some d => d | None => 0 end.

(** The first hardware id whose REV_ value, as [u16], is not the "unset"
    value 0; and the first whose MI_ value, as [i32], is not [-1]. *)
Definition first_rev_hit (hardware_ids : list (list Z)) : option Z :=
  filter_map_next
    (fun h => match extract_int_token_value (to_upper h) "REV_" with
              | Some r => if u32_as_u16 r =? 0 then None else Some (u32_as_u16 r)
              | None => None
              end) hardware_ids.

Definition first_mi_hit (hardware_ids : list (list Z)) : option Z :=
  filter_map_next
    (fun h => match extract_int_token_value (to_upper h) "MI_" with
              | Some v => if u32_as_i32 v =? -1 then None else Some (u32_as_i32 v)
              | None => None
              end) hardware_ids.

(** The record as [get_device_info] hands it to the USB resolver, with
    no fast-path strings. *)
Definition usb_start_dev : DeviceInfo :=
  mkDeviceInfo hid_interface_path 0x1234 0x5678 empty_wstring 0 empty_wstring empty_wstring
               1 2 (-1) Usb.

(** The record [get_device_info] builds for a fixture, or [None] on panic. *)
Definition device_of (t : FakeTree) (fp : FastPath) : option DeviceInfo :=
  match get_device_info (fake_platform t) hid_interface_path fp with
  | Ok d => Some d
  | Panicked => None
  end.

(* ================================================================== *)
(** * Properties *)

(** ** Two-phase property fetch *)

(** Rejecting the size query: another status than [CR_BUFFER_SMALL] or
    another property type than expected. *)
Lemma cr_eqb_buffer_small (cr : CONFIGRET) :
  cr_eqb cr CR_BUFFER_SMALL = true <-> cr = CR_BUFFER_SMALL.
Proof. destruct cr; simpl; split; congruence. Qed.

Lemma first_phase_rejected (cr : CONFIGRET) (ty expected : Z) :
  (cr <> CR_BUFFER_SMALL \/ ty <> expected) ->
  negb (cr_eqb cr CR_BUFFER_SMALL && (ty =? expected)) = true.
Proof.
  intros H. apply negb_true_iff, andb_false_iff.
  destruct H as [H | H].
  - left. destruct (cr_eqb cr CR_BUFFER_SMALL) eqn:E; [|reflexivity].
    apply cr_eqb_buffer_small in E. contradiction.
  - right. apply Z.eqb_neq. exact H.
Qed.

(** C9: for a device-tree node and for an interface path alike, when the
    size query reports a status other than "buffer too small" or a type
    other than the expected one, the fetch yields absence (not a panic),
    whatever length it reported. *)
Theorem property_fetch_first_phase_absent
    (pl : Platform) (dev_node : Z) (interface_path : list Z) (key : PropKey) (expected : Z)
    (cr : CONFIGRET) (ty len : Z) (cr' : CONFIGRET) (ty' len' : Z)
    (Hnode : cm_get_devnode_property_size pl dev_node key = (cr, ty, len))
    (Hiface : cm_get_device_interface_property_size pl interface_path key = (cr', ty', len'))
    (Hbad : cr <> CR_BUFFER_SMALL \/ ty <> expected)
    (Hbad' : cr' <> CR_BUFFER_SMALL \/ ty' <> expected) :
  get_devnode_property pl dev_node key expected = Ok None
  /\ get_device_interface_property pl interface_path key expected = Ok None.
Proof.
  unfold get_devnode_property, get_device_interface_property.
  rewrite Hnode, Hiface, (first_phase_rejected _ _ _ Hbad), (first_phase_rejected _ _ _ Hbad').
  split; reflexivity.
Qed.

Lemma property_fetch_first_phase_absent_witness :
  get_devnode_property (fake_platform usb_composite_tree) 20 DEVPKEY_Device_HardwareIds
    DEVPROP_TYPE_STRING = Ok None
  /\ get_device_interface_property (fake_platform usb_composite_tree) hid_interface_path
       DEVPKEY_Device_HardwareIds DEVPROP_TYPE_STRING = Ok None.
Proof.
  eapply (property_fetch_first_phase_absent (fake_platform usb_composite_tree) 20
            hid_interface_path DEVPKEY_Device_HardwareIds DEVPROP_TYPE_STRING).
  - vm_compute. reflexivity.
  - vm_compute. reflexivity.
  - right. vm_compute. discriminate.
  - left. vm_compute. discriminate.
Defined.

(** ** Concrete devices *)

(** C1 (counterexample): a device whose first matching compatible id starts
    with BTHLEDEVICE is reported with the bus type [Bluetooth], the very value
    a BTHENUM (Bluetooth classic) device gets. *)
Lemma ble_device_reports_bluetooth_classic :
  bus_of_compatible_ids
    (cast_u16_aux (snd (prop_string_list ["BTHLEDEVICE\{00001812-0000-1000-8000-00805F9B34FB}"]%string)))
    = IBluetoothLE
  /\ option_map bus_type (device_of ble_tree fp_no_strings) = Some Bluetooth
  /\ option_map bus_type (device_of bthenum_tree fp_no_strings) = Some Bluetooth.
Proof. vm_compute. repeat split. Qed.


(** C3 (counterexample): with the hardware-id list absent, the manufacturer
    fallback does not run although the node has a manufacturer property, and
    the interface-number default does not run either. *)
Lemma absent_hardware_ids_skip_later_steps :
  get_devnode_property (fake_platform usb_no_hardware_ids_tree) 20
    DEVPKEY_Device_Manufacturer DEVPROP_TYPE_STRING = Ok (Some (utf16le "Acme" ++ [0; 0]))
  /\ option_map (fun d => (manufacturer_string d, interface_number d))
       (device_of usb_no_hardware_ids_tree fp_no_strings) = Some (empty_wstring, -1).
Proof. vm_compute. split; reflexivity. Qed.

(** C4 (code_bug): a composite USB device without a fast-path serial number
    whose composite parent has the instance id USB\VID_1234&PID_5678\ABC123:
    the text after the last backslash is ABC123, but the boundary scan finds
    no start (the terminating NUL is the last unit that is not an ampersand)
    and serial_number stays empty. *)
Lemma usb_serial_not_extracted :
  serial_start (cast_u16_aux (snd (prop_string "USB\VID_1234&PID_5678\ABC123"))) = None
  /\ option_map (fun d => (interface_number d, serial_number d))
       (device_of usb_composite_tree fp_no_strings) = Some (1, empty_wstring).
Proof. vm_compute. split; reflexivity. Qed.

(** Behind C4: for any instance id whose last unit is not an ampersand
    (a NUL-terminated string always ends in NUL), the boundary scan of
    [get_usb_info] finds no start, so the serial number is never set. *)
Lemma serial_start_last_not_ampersand (device_id : list Z) (c : Z) :
  c <> AMPERSAND -> serial_start (device_id ++ [c]) = None.
Proof.
  intros Hc. unfold serial_start, rsplit_next. rewrite rev_unit. cbn [take_until].
  replace (negb (c =? AMPERSAND)) with true
    by (symmetry; apply negb_true_iff, Z.eqb_neq; exact Hc).
  reflexivity.
Qed.

(** C6 (code_bug): none of the compatible ids HID_DEVICE_SYSTEM_MOUSE,
    HID_DEVICE_UP:0001_U:0002, HID_DEVICE starts with a known prefix, yet
    the empty segments the split yields for the list's terminating NULs match
    USB: the device is reported as [Usb] and the USB resolver runs (it
    normalizes the interface number to 0). *)
Lemma unmatched_compatible_ids_classified_usb :
  map (fun s => classify_compatible_id (pattern_units s))
      ["HID_DEVICE_SYSTEM_MOUSE"; "HID_DEVICE_UP:0001_U:0002"; "HID_DEVICE"]%string
    = [None; None; None]
  /\ classify_compatible_id [] = Some IUsb
  /\ option_map (fun d => (bus_type d, interface_number d))
       (device_of hid_only_tree fp_with_serial) = Some (Usb, 0).
Proof. vm_compute. repeat split. Qed.

(** C7 (counterexample): the first hardware id carries REV_0000, the second
    REV_0200; the second overrides the first, since 0 also means "unset".
    The interface number keeps the first MI_ value, 0. *)
Lemma later_rev_overrides_zero_rev :
  option_map (fun d => (release_number d, interface_number d))
    (device_of rev_zero_tree fp_no_strings) = Some (0x200, 0).
Proof. vm_compute. reflexivity. Qed.

(** ** Identifier token parser *)

(** Turn boolean comparisons on [Z] in the hypotheses into propositions. *)
Ltac zbool :=
  repeat match goal with
  | H : (_ && _) = true |- _ => apply andb_true_iff in H; destruct H
  | H : (_ <=? _) = true |- _ => apply Z.leb_le in H
  | H : (_ <=? _) = false |- _ => apply Z.leb_gt in H
  | H : (_ <? _) = true |- _ => apply Z.ltb_lt in H
  | H : (_ <? _) = false |- _ => apply Z.ltb_ge in H
  | H : (_ =? _) = true |- _ => apply Z.eqb_eq in H
  | H : (_ =? _) = false |- _ => apply Z.eqb_neq in H
  end.

(** Decide a boolean comparison on [Z] from arithmetic facts. *)
Ltac zbool_goal b :=
  first [ replace b with true by (symmetry; first [apply Z.leb_le | apply Z.ltb_lt | apply Z.eqb_eq]; lia)
        | replace b with false by (symmetry; first [apply Z.leb_gt | apply Z.ltb_ge | apply Z.eqb_neq]; lia) ].

Lemma zip_all_ignore_case_short (l r : list Z) :
  (length l <= length r)%nat ->
  (forall k, (k < length l)%nat -> eq_ignore_ascii_case (nth k l 0) (nth k r 0) = true) ->
  zip_all_ignore_case l r = true.
Proof.
  revert r. induction l as [|a l IH]; intros [|b r] Hlen Hk; simpl in *; try reflexivity.
  apply andb_true_intro. split.
  - apply (Hk 0%nat). lia.
  - apply IH; [lia|]. intros k Hk'. apply (Hk (S k)). lia.
Qed.

(** C10: a haystack whose decoded characters are fewer than the pattern's
    and match the pattern's prefix case-insensitively is accepted by
    [starts_with_ignore_case]: the comparison stops at the shorter side. *)
Theorem starts_with_ignore_case_short_haystack (utf16str : list Z) (pattern : string)
    (Hshort : (length (map unwrap_or_replacement (decode_utf16 utf16str))
               < length (pattern_units pattern))%nat)
    (Hprefix : forall k, (k < length (map unwrap_or_replacement (decode_utf16 utf16str)))%nat ->
       eq_ignore_ascii_case (nth k (map unwrap_or_replacement (decode_utf16 utf16str)) 0)
                            (nth k (pattern_units pattern) 0) = true) :
  starts_with_ignore_case utf16str pattern = true.
Proof.
  unfold starts_with_ignore_case. apply zip_all_ignore_case_short; [lia | exact Hprefix].
Qed.

Lemma starts_with_ignore_case_short_haystack_witness :
  starts_with_ignore_case (pattern_units "BTHENU") "BTHENUM" = true.
Proof.
  apply starts_with_ignore_case_short_haystack.
  - vm_compute. lia.
  - intros k Hk. vm_compute in Hk.
    do 6 (destruct k as [|k]; [reflexivity|]). lia.
Defined.

(** Decoding a run of hexadecimal digits followed by a unit that is no
    hexadecimal digit (or by nothing). *)
Lemma to_digit16_range (c : Z) : to_digit16 c <> None -> 48 <= c <= 102.
Proof.
  unfold to_digit16. intros H.
  destruct ((48 <=? c) && (c <=? 57)) eqn:E1; [zbool; lia|].
  destruct ((65 <=? c) && (c <=? 70)) eqn:E2; [zbool; lia|].
  destruct ((97 <=? c) && (c <=? 102)) eqn:E3; [zbool; lia|].
  contradiction.
Qed.

Lemma to_digit16_large (c : Z) : 102 < c -> to_digit16 c = None.
Proof.
  intros H. unfold to_digit16.
  zbool_goal (c <=? 57). zbool_goal (c <=? 70). zbool_goal (c <=? 102).
  rewrite !andb_false_r. reflexivity.
Qed.

Lemma hex_digits_stop (rest : list Z) :
  match rest with [] => True | c :: _ => to_digit16 c = None end ->
  hex_digits (decode_utf16 rest) = [].
Proof.
  destruct rest as [|c r]; intros H; [reflexivity|]. cbn [decode_utf16].
  destruct (is_high_surrogate c) eqn:Hh.
  - destruct r as [|v r']; [reflexivity|].
    destruct (is_low_surrogate v) eqn:Hl; [|reflexivity].
    unfold is_high_surrogate, is_low_surrogate in *. zbool.
    cbn [hex_digits]. rewrite to_digit16_large by lia. reflexivity.
  - destruct (is_low_surrogate c); [reflexivity|]. cbn [hex_digits]. rewrite H. reflexivity.
Qed.

Lemma hex_digits_run (ds rest : list Z) :
  Forall (fun c => to_digit16 c <> None) ds ->
  match rest with [] => True | c :: _ => to_digit16 c = None end ->
  hex_digits (decode_utf16 (ds ++ rest)) = map hex_digit_value ds.
Proof.
  intros Hds Hstop. induction Hds as [|c ds Hc Hds IH]; simpl.
  - apply hex_digits_stop. exact Hstop.
  - pose proof (to_digit16_range c Hc) as Hr.
    cbn [decode_utf16]. unfold is_high_surrogate, is_low_surrogate.
    zbool_goal (0xD800 <=? c). zbool_goal (0xDC00 <=? c).
    cbn [andb hex_digits]. unfold hex_digit_value.
    destruct (to_digit16 c) as [d|]; [|contradiction]. rewrite IH. reflexivity.
Qed.

Lemma fold_hex_mod_congr (rs : list Z) (x y : Z) :
  x mod 2 ^ 32 = y mod 2 ^ 32 ->
  fold_left (fun l r => l * 16 + r) rs x mod 2 ^ 32
  = fold_left (fun l r => l * 16 + r) rs y mod 2 ^ 32.
Proof.
  revert x y. induction rs as [|r rs IH]; intros x y H; simpl; [exact H|].
  apply IH. rewrite Zplus_mod, Zmult_mod, H, <- Zmult_mod, <- Zplus_mod. reflexivity.
Qed.

Lemma fold_hex_wrap (rs : list Z) (d : Z) :
  0 <= d < 2 ^ 32 ->
  fold_left (fun l r => u32_wrap (l * 16 + r)) rs d
  = fold_left (fun l r => l * 16 + r) rs d mod 2 ^ 32.
Proof.
  revert d. induction rs as [|r rs IH]; intros d Hd; simpl.
  - rewrite Z.mod_small; lia.
  - unfold u32_wrap at 2. rewrite IH by (apply Z.mod_pos_bound; lia).
    apply fold_hex_mod_congr. apply Z.mod_mod. lia.
Qed.

Lemma fold_left_map_fn {A B C} (f : A -> B -> A) (g : C -> B) (l : list C) (x : A) :
  fold_left f (map g l) x = fold_left (fun a c => f a (g c)) l x.
Proof. revert x. induction l as [|c l IH]; intros x; simpl; [reflexivity | apply IH]. Qed.

Lemma to_digit16_bound (c d : Z) : to_digit16 c = Some d -> 0 <= d < 16.
Proof.
  unfold to_digit16. intros H.
  destruct ((48 <=? c) && (c <=? 57)) eqn:E1; [zbool; injection H; lia|].
  destruct ((65 <=? c) && (c <=? 70)) eqn:E2; [zbool; injection H; lia|].
  destruct ((97 <=? c) && (c <=? 102)) eqn:E3; [zbool; injection H; lia|].
  discriminate.
Qed.

(** C8: after the first occurrence of the token, [extract_int_token_value]
    takes the longest run of hexadecimal digits [ds] (stopping at the first
    unit that is not one), gives absence when the run is empty, and otherwise
    the digits folded base 16, most significant first, as a [u32]. *)
Theorem extract_int_token_value_hex_run (u16str : list Z) (token : string) (i : nat)
    (ds rest : list Z)
    (Hfind : find_first_upper_case u16str token = Some i)
    (Hafter : skipn (i + length (pattern_units token)) u16str = ds ++ rest)
    (Hdigits : Forall (fun c => to_digit16 c <> None) ds)
    (Hstop : match rest with [] => True | c :: _ => to_digit16 c = None end) :
  extract_int_token_value u16str token
  = match ds with
    | [] => None
    | _ => Some (fold_left (fun acc c => acc * 16 + hex_digit_value c) ds 0 mod 2 ^ 32)
    end.
Proof.
  unfold extract_int_token_value. rewrite Hfind, Hafter, (hex_digits_run ds rest Hdigits Hstop).
  destruct ds as [|c ds]; [reflexivity|]. simpl.
  rewrite fold_hex_wrap.
  - rewrite fold_left_map_fn. reflexivity.
  - inversion Hdigits as [|? ? Hc _]; subst. unfold hex_digit_value.
    destruct (to_digit16 c) as [d|] eqn:E; [|contradiction].
    apply to_digit16_bound in E. lia.
Qed.

(** The spec's examples: MI_02 gives 2, MI_ gives absence, MI_1F gives 31. *)
Lemma extract_int_token_value_hex_run_witness :
  extract_int_token_value (pattern_units "MI_02") "MI_" = Some 2
  /\ extract_int_token_value (pattern_units "MI_") "MI_" = None
  /\ extract_int_token_value (pattern_units "MI_1F") "MI_" = Some 31.
Proof.
  split; [|split].
  - rewrite (extract_int_token_value_hex_run (pattern_units "MI_02") "MI_" 0 [48; 50] []);
      [reflexivity | vm_compute; reflexivity | vm_compute; reflexivity
      | repeat constructor; vm_compute; discriminate | exact I].
  - rewrite (extract_int_token_value_hex_run (pattern_units "MI_") "MI_" 0 [] []);
      [reflexivity | vm_compute; reflexivity | vm_compute; reflexivity
      | constructor | exact I].
  - rewrite (extract_int_token_value_hex_run (pattern_units "MI_1F") "MI_" 0 [49; 70] []);
      [reflexivity | vm_compute; reflexivity | vm_compute; reflexivity
      | repeat constructor; vm_compute; discriminate | exact I].
Defined.

Lemma zip_all_eq_iff (a b : list Z) :
  length a = length b -> zip_all_eq a b = true <-> a = b.
Proof.
  revert b. induction a as [|x a IH]; intros [|y b] Hlen; simpl in *; try easy.
  rewrite andb_true_iff, Z.eqb_eq, IH by lia. split.
  - intros [-> ->]. reflexivity.
  - intros H. injection H as -> ->. split; reflexivity.
Qed.

Lemma window_too_short (p l : list Z) (k : nat) :
  (length l < length p)%nat -> firstn (length p) (skipn k l) <> p.
Proof.
  intros Hl He. assert (Hlen := f_equal (@length Z) He).
  rewrite length_firstn, length_skipn in Hlen. lia.
Qed.

Lemma first_window_cons (p : list Z) (i : nat) (c : Z) (r : list Z) :
  (length p <= length (c :: r))%nat ->
  first_window p i (c :: r)
  = if zip_all_eq (firstn (length p) (c :: r)) p then Some i else first_window p (S i) r.
Proof.
  intros Hle. unfold first_window. cbn [windows_from].
  replace (Nat.leb (length p) (length (c :: r))) with true by (symmetry; apply Nat.leb_le; exact Hle).
  cbn [filter snd]. destruct (zip_all_eq (firstn (length p) (c :: r)) p); reflexivity.
Qed.

Lemma first_window_short (p : list Z) (i : nat) (l : list Z) :
  p <> [] -> (length l < length p)%nat -> first_window p i l = None.
Proof.
  intros Hp Hl. unfold first_window. destruct l as [|c r]; [reflexivity|].
  cbn [windows_from].
  replace (Nat.leb (length p) (length (c :: r))) with false by (symmetry; apply Nat.leb_gt; exact Hl).
  reflexivity.
Qed.

(** The search from position [i] finds [i + k] for the first window [k]
    equal to the pattern, and nothing when no window is. *)
Lemma first_window_spec (p : list Z) (l : list Z) :
  p <> [] ->
  forall i,
    (forall j, first_window p i l = Some j <->
       exists k, j = (i + k)%nat /\ firstn (length p) (skipn k l) = p
                 /\ forall k', (k' < k)%nat -> firstn (length p) (skipn k' l) <> p)
    /\ (first_window p i l = None <-> forall k, firstn (length p) (skipn k l) <> p).
Proof.
  intros Hp. induction l as [|c r IH]; intros i.
  - assert (Hshort : (length (@nil Z) < length p)%nat) by (destruct p; [congruence | simpl; lia]).
    rewrite (first_window_short p i [] Hp Hshort). split.
    + intros j. split; [discriminate|]. intros (k & _ & Hk & _).
      exfalso; exact (window_too_short p [] k Hshort Hk).
    + split; [intros _ k; exact (window_too_short p [] k Hshort) | reflexivity].
  - destruct (Nat.lt_ge_cases (length (c :: r)) (length p)) as [Hshort | Hle].
    + rewrite (first_window_short p i (c :: r) Hp Hshort). split.
      * intros j. split; [discriminate|]. intros (k & _ & Hk & _).
        exfalso; exact (window_too_short p (c :: r) k Hshort Hk).
      * split; [intros _ k; exact (window_too_short p (c :: r) k Hshort) | reflexivity].
    + rewrite (first_window_cons p i c r Hle).
      assert (Hw : zip_all_eq (firstn (length p) (c :: r)) p = true
                   <-> firstn (length p) (c :: r) = p)
        by (apply zip_all_eq_iff; rewrite length_firstn; lia).
      destruct (IH (S i)) as [IHs IHn].
      destruct (zip_all_eq (firstn (length p) (c :: r)) p) eqn:E.
      * assert (H0 : firstn (length p) (skipn 0 (c :: r)) = p) by (apply Hw; reflexivity).
        split.
        -- intros j. split.
           ++ intros Hj. injection Hj as <-. exists 0%nat. rewrite Nat.add_0_r.
              split; [reflexivity|]. split; [exact H0 | intros k' Hk'; lia].
           ++ intros (k & -> & Hk & Hbefore). destruct k as [|k]; [f_equal; lia|].
              exfalso. apply (Hbefore 0%nat); [lia | exact H0].
        -- split; [discriminate | intros Hn; exfalso; exact (Hn 0%nat H0)].
      * assert (H0 : firstn (length p) (skipn 0 (c :: r)) <> p)
          by (simpl; intros He; apply Hw in He; discriminate).
        split.
        -- intros j. rewrite IHs. split.
           ++ intros (k & -> & Hk & Hbefore). exists (S k). split; [lia|].
              split; [exact Hk|]. intros [|k'] Hk'; [exact H0|]. apply Hbefore. lia.
           ++ intros (k & -> & Hk & Hbefore). destruct k as [|k]; [contradiction|].
              exists k. split; [lia|]. split; [exact Hk|].
              intros k' Hk'. apply (Hbefore (S k')). lia.
        -- rewrite IHn. split.
           ++ intros Hn [|k]; [exact H0 | exact (Hn k)].
           ++ intros Hn k. exact (Hn (S k)).
Qed.

(** [find_first_upper_case] itself compares code units exactly: for a
    non-empty token it returns the first position whose window equals the
    token's code units, and absence exactly when no window does. *)
Lemma find_first_upper_case_first_exact (u16str : list Z) (token : string)
    (Htoken : pattern_units token <> []) :
  (forall i, find_first_upper_case u16str token = Some i <->
     firstn (length (pattern_units token)) (skipn i u16str) = pattern_units token
     /\ forall j, (j < i)%nat ->
          firstn (length (pattern_units token)) (skipn j u16str) <> pattern_units token)
  /\ (find_first_upper_case u16str token = None <->
      forall j, firstn (length (pattern_units token)) (skipn j u16str) <> pattern_units token).
Proof.
  destruct (first_window_spec (pattern_units token) u16str Htoken 0) as [Hs Hn].
  change (find_first_upper_case u16str token) with (first_window (pattern_units token) 0 u16str).
  split; [|exact Hn].
  intros i. rewrite Hs. split.
  - intros (k & -> & Hk & Hb). exact (conj Hk Hb).
  - intros [Hk Hb]. exists i. split; [reflexivity | exact (conj Hk Hb)].
Qed.

(** Uppercasing commutes with taking a window. *)
Lemma to_upper_window (n i : nat) (u16str : list Z) :
  firstn n (skipn i (to_upper u16str)) = to_upper (firstn n (skipn i u16str)).
Proof. unfold to_upper. rewrite skipn_map, firstn_map. reflexivity. Qed.

(** C5: the token search as the program runs it.  Its only caller,
    [extract_int_token_value], is always applied to a [to_upper]'d hardware
    or instance id (lines 188/193, 204/206/211) with an upper-case literal
    token (REV_, MI_, IG_).  On that input the search is a first-occurrence,
    case-insensitive, exact-width window match: it returns position [i]
    exactly when the window of the token's width at [i] of the original text
    is a letter-case variant of the token (uppercases to it) and no earlier
    window is, and absence exactly when no window is. *)
Theorem find_token_case_insensitive_first (u16str : list Z) (token : string)
    (Htoken : pattern_units token <> [])
    (Hupper : to_upper (pattern_units token) = pattern_units token) :
  (forall i, find_first_upper_case (to_upper u16str) token = Some i <->
     to_upper (firstn (length (pattern_units token)) (skipn i u16str)) = pattern_units token
     /\ forall j, (j < i)%nat ->
          to_upper (firstn (length (pattern_units token)) (skipn j u16str)) <> pattern_units token)
  /\ (find_first_upper_case (to_upper u16str) token = None <->
      forall j, to_upper (firstn (length (pattern_units token)) (skipn j u16str)) <> pattern_units token).
Proof.
  destruct (find_first_upper_case_first_exact (to_upper u16str) token Htoken) as [Hs Hn].
  split.
  - intros i. rewrite Hs, !to_upper_window. split.
    + intros [Hk Hb]. split; [exact Hk|]. intros j Hj. rewrite <- to_upper_window. exact (Hb j Hj).
    + intros [Hk Hb]. split; [exact Hk|]. intros j Hj. rewrite to_upper_window. exact (Hb j Hj).
  - rewrite Hn. split; intros H j; [rewrite <- to_upper_window | rewrite to_upper_window]; apply H.
Qed.

Lemma find_token_case_insensitive_first_witness :
  find_first_upper_case (to_upper (pattern_units "usb\vid_1234&pid_5678&mi_01")) "MI_" = Some 22%nat.
Proof.
  apply (find_token_case_insensitive_first (pattern_units "usb\vid_1234&pid_5678&mi_01") "MI_").
  - vm_compute. discriminate.
  - vm_compute. reflexivity.
  - split.
    + vm_compute. reflexivity.
    + intros j Hj. vm_compute.
      do 22 (destruct j as [|j]; [discriminate|]). lia.
Defined.

(** ** Hardware-id scan *)

Lemma first_rev_hit_cons (h : list Z) (hs : list (list Z)) :
  first_rev_hit (h :: hs)
  = match extract_int_token_value (to_upper h) "REV_" with
    | Some r => if u32_as_u16 r =? 0 then first_rev_hit hs else Some (u32_as_u16 r)
    | None => first_rev_hit hs
    end.
Proof.
  unfold first_rev_hit at 1. cbn [filter_map_next].
  destruct (extract_int_token_value (to_upper h) "REV_") as [r|]; [|reflexivity].
  destruct (u32_as_u16 r =? 0); reflexivity.
Qed.

Lemma first_mi_hit_cons (h : list Z) (hs : list (list Z)) :
  first_mi_hit (h :: hs)
  = match extract_int_token_value (to_upper h) "MI_" with
    | Some v => if u32_as_i32 v =? -1 then first_mi_hit hs else Some (u32_as_i32 v)
    | None => first_mi_hit hs
    end.
Proof.
  unfold first_mi_hit at 1. cbn [filter_map_next].
  destruct (extract_int_token_value (to_upper h) "MI_") as [v|]; [|reflexivity].
  destruct (u32_as_i32 v =? -1); reflexivity.
Qed.

(** One loop step changes the release number only through REV_, and the
    interface number only through MI_. *)
Lemma hardware_id_step_release (dev : DeviceInfo) (h : list Z) :
  release_number (hardware_id_step dev h)
  = if release_number dev =? 0 then
      match extract_int_token_value (to_upper h) "REV_" with
      | Some r => u32_as_u16 r
      | None => release_number dev
      end
    else release_number dev.
Proof.
  unfold hardware_id_step.
  destruct (release_number dev =? 0);
    [destruct (extract_int_token_value (to_upper h) "REV_")|];
    match goal with
    | |- release_number (if ?b then _ else _) = _ =>
        destruct b; [destruct (extract_int_token_value (to_upper h) "MI_")|]
    end; reflexivity.
Qed.

Lemma hardware_id_step_interface (dev : DeviceInfo) (h : list Z) :
  interface_number (hardware_id_step dev h)
  = if interface_number dev =? -1 then
      match extract_int_token_value (to_upper h) "MI_" with
      | Some v => u32_as_i32 v
      | None => interface_number dev
      end
    else interface_number dev.
Proof.
  unfold hardware_id_step.
  set (dev1 := if release_number dev =? 0 then _ else dev).
  assert (Hi : interface_number dev1 = interface_number dev)
    by (subst dev1; destruct (release_number dev =? 0);
        [destruct (extract_int_token_value (to_upper h) "REV_")|]; reflexivity).
  rewrite Hi. destruct (interface_number dev =? -1);
    [destruct (extract_int_token_value (to_upper h) "MI_")|]; simpl; auto.
Qed.

Lemma scan_hardware_ids_release (hardware_ids : list (list Z)) (dev : DeviceInfo) :
  release_number (scan_hardware_ids hardware_ids dev)
  = if release_number dev =? 0
    then match first_rev_hit hardware_ids with Some r => r | None => 0 end
    else release_number dev.
Proof.
  revert dev. induction hardware_ids as [|h hs IH]; intros dev; simpl.
  - destruct (release_number dev =? 0) eqn:E; zbool; [lia | reflexivity].
  - unfold scan_hardware_ids in IH. rewrite IH, hardware_id_step_release, first_rev_hit_cons.
    destruct (release_number dev =? 0) eqn:E0; [|rewrite E0; reflexivity].
    destruct (extract_int_token_value (to_upper h) "REV_") as [r|]; [|rewrite E0; reflexivity].
    destruct (u32_as_u16 r =? 0) eqn:Ez; reflexivity.
Qed.

Lemma scan_hardware_ids_interface (hardware_ids : list (list Z)) (dev : DeviceInfo) :
  interface_number (scan_hardware_ids hardware_ids dev)
  = if interface_number dev =? -1
    then match first_mi_hit hardware_ids with Some v => v | None => -1 end
    else interface_number dev.
Proof.
  revert dev. induction hardware_ids as [|h hs IH]; intros dev; simpl.
  - destruct (interface_number dev =? -1) eqn:E; zbool; [lia | reflexivity].
  - unfold scan_hardware_ids in IH. rewrite IH, hardware_id_step_interface, first_mi_hit_cons.
    destruct (interface_number dev =? -1) eqn:E0; [|rewrite E0; reflexivity].
    destruct (extract_int_token_value (to_upper h) "MI_") as [v|]; [|rewrite E0; reflexivity].
    destruct (u32_as_i32 v =? -1) eqn:Ez; reflexivity.
Qed.

(** C7 (amended): starting from the fast-path values, the scan sets
    release_number from the first hardware id whose REV_ value is non-zero
    as a [u16] (a zero value leaves the field "unset", so a later entry may
    still set it), and never changes a non-zero release number; likewise
    interface_number from the first MI_ value that is not [-1] as an [i32],
    never changing an interface number other than [-1]. *)
Theorem scan_hardware_ids_first_hit (hardware_ids : list (list Z)) (dev : DeviceInfo) :
  release_number (scan_hardware_ids hardware_ids dev)
  = (if release_number dev =? 0
     then match first_rev_hit hardware_ids with Some r => r | None => 0 end
     else release_number dev)
  /\ interface_number (scan_hardware_ids hardware_ids dev)
     = (if interface_number dev =? -1
        then match first_mi_hit hardware_ids with Some v => v | None => -1 end
        else interface_number dev).
Proof. split; [apply scan_hardware_ids_release | apply scan_hardware_ids_interface]. Qed.

(** ** Reasoning about the resolver monad *)

(** [triple P m Q]: from a record satisfying [P], every non-panicking run
    of [m] ends in a record [d'] and result [r] with [Q r d']. *)
Definition triple {A} (P : DeviceInfo -> Prop) (m : M A)
    (Q : option A -> DeviceInfo -> Prop) : Prop :=
  forall d d' r, P d -> m d = Ok (d', r) -> Q r d'.

Section Triples.
Context {A B : Type}.
Implicit Types (P : DeviceInfo -> Prop) (Q : option B -> DeviceInfo -> Prop).

Lemma triple_ret P Q (x : B) :
  (forall d, P d -> Q (Some x) d) -> triple P (ret x) Q.
Proof. intros H d d' r HP E. injection E as <- <-. auto. Qed.

Lemma triple_early_return P Q :
  (forall d, P d -> Q None d) -> triple P early_return Q.
Proof. intros H d d' r HP E. injection E as <- <-. auto. Qed.

Lemma triple_modify P (Q : option unit -> DeviceInfo -> Prop) f :
  (forall d, P d -> Q (Some tt) (f d)) -> triple P (modify f) Q.
Proof. intros H d d' r HP E. injection E as <- <-. auto. Qed.

Lemma triple_bind_get P Q (k : DeviceInfo -> M B) :
  (forall a, triple (fun d => d = a /\ P d) (k a) Q) -> triple P (bind get_dev k) Q.
Proof. intros H d d' r HP E. exact (H d d d' r (conj eq_refl HP) E). Qed.

Lemma triple_bind_modify P Q f (k : unit -> M B) :
  triple (fun d => exists d0, P d0 /\ d = f d0) (k tt) Q -> triple P (bind (modify f) k) Q.
Proof. intros H d d' r HP E. exact (H (f d) d' r (ex_intro _ d (conj HP eq_refl)) E). Qed.

Lemma triple_bind_ret P Q (x : A) (k : A -> M B) :
  triple P (k x) Q -> triple P (bind (ret x) k) Q.
Proof. intros H d d' r HP E. exact (H d d' r HP E). Qed.

Lemma triple_bind_lift P Q (e : run A) (k : A -> M B) :
  (forall a, e = Ok a -> triple P (k a) Q) -> triple P (bind (lift e) k) Q.
Proof.
  intros H d d' r HP E. unfold bind, lift in E.
  destruct e as [a|]; [exact (H a eq_refl d d' r HP E) | discriminate].
Qed.

Lemma triple_bind_try_opt P Q (e : run (option A)) (k : A -> M B) :
  (forall a, e = Ok (Some a) -> triple P (k a) Q) ->
  (e = Ok None -> forall d, P d -> Q None d) ->
  triple P (bind (try_opt e) k) Q.
Proof.
  intros Hs Hn d d' r HP E. unfold bind, try_opt in E.
  destruct e as [[a|]|].
  - exact (Hs a eq_refl d d' r HP E).
  - injection E as <- <-. exact (Hn eq_refl d HP).
  - discriminate.
Qed.

Lemma triple_bind_assoc {C} P Q (m : M C) (f : C -> M A) (k : A -> M B) :
  triple P (bind m (fun x => bind (f x) k)) Q -> triple P (bind (bind m f) k) Q.
Proof.
  intros H d d' r HP E. apply (H d d' r HP). unfold bind in *.
  destruct (m d) as [[d1 [c|]]|]; [exact E | exact E | discriminate].
Qed.

End Triples.

(** Symbolic execution of a resolver body. *)
Ltac triple_step :=
  match goal with
  | |- triple _ (bind (bind _ _) _) _ => apply triple_bind_assoc
  | |- triple _ (bind get_dev _) _ => apply triple_bind_get; intros ?
  | |- triple _ (bind (modify _) _) _ => apply triple_bind_modify
  | |- triple _ (bind (ret _) _) _ => apply triple_bind_ret
  | |- triple _ (bind (lift _) _) _ => apply triple_bind_lift; intros ? ?
  | |- triple _ (bind (try_opt _) _) _ => apply triple_bind_try_opt; [intros ? ? | intros ? ? ?]
  | |- triple _ (bind (if ?b then _ else _) _) _ => destruct b eqn:?
  | |- triple _ (bind (match ?x with _ => _ end) _) _ => destruct x eqn:?
  | |- triple _ (if ?b then _ else _) _ => destruct b eqn:?
  | |- triple _ (match ?x with _ => _ end) _ => destruct x eqn:?
  | |- triple _ (ret _) _ => apply triple_ret; intros ? ?
  | |- triple _ early_return _ => apply triple_early_return; intros ? ?
  | |- triple _ (modify _) _ => apply triple_modify; intros ? ?
  end.

Ltac destruct_pre :=
  repeat match goal with
  | H : exists _, _ |- _ => destruct H
  | H : _ /\ _ |- _ => destruct H
  end; subst.

(** The Bluetooth LE resolver never changes the bus type. *)
Lemma get_ble_info_bus_type (pl : Platform) (dev_node : Z) (b : BusType) :
  triple (fun d => bus_type d = b) (get_ble_info pl dev_node) (fun _ d => bus_type d = b).
Proof.
  unfold get_ble_info. repeat triple_step; destruct_pre; simpl; reflexivity.
Qed.

(** ** USB identity resolution *)






(** C3 (amended): the first two steps are not skippable.  If the node's
    instance id is absent, if an IG_ token is found and the parent lookup
    fails, or if the hardware-id list of the (possibly escalated) node is
    absent, [get_usb_info] returns [None] at once with the record unchanged:
    the manufacturer and serial-number fallbacks and the interface-number
    default do not run. *)
Theorem usb_resolution_early_exit_keeps_record
    (pl : Platform) (dev_node : Z) (dev : DeviceInfo) (device_id units : list Z) (node : Z) :
  (get_devnode_property pl dev_node DEVPKEY_Device_InstanceId DEVPROP_TYPE_STRING = Ok None ->
   get_usb_info pl dev_node dev = Ok (dev, None))
  /\ (get_devnode_property pl dev_node DEVPKEY_Device_InstanceId DEVPROP_TYPE_STRING
        = Ok (Some device_id) ->
      cast_u16 device_id = Ok units ->
      extract_int_token_value (to_upper units) "IG_" <> None ->
      get_dev_node_parent pl dev_node = None ->
      get_usb_info pl dev_node dev = Ok (dev, None))
  /\ (get_devnode_property pl dev_node DEVPKEY_Device_InstanceId DEVPROP_TYPE_STRING
        = Ok (Some device_id) ->
      cast_u16 device_id = Ok units ->
      match extract_int_token_value (to_upper units) "IG_" with
      | Some _ => get_dev_node_parent pl dev_node = Some node
      | None => node = dev_node
      end ->
      get_devnode_property pl node DEVPKEY_Device_HardwareIds DEVPROP_TYPE_STRING_LIST = Ok None ->
      get_usb_info pl dev_node dev = Ok (dev, None)).
Proof.
  cbv [get_usb_info bind try_opt lift ret].
  split; [|split].
  - intros H. rewrite H. reflexivity.
  - intros H Hc Hig Hp. rewrite H. cbn beta iota. rewrite Hc. cbn beta iota.
    destruct (extract_int_token_value (to_upper units) "IG_"); [|contradiction].
    rewrite Hp. reflexivity.
  - intros H Hc Hnode Hhw. rewrite H. cbn beta iota. rewrite Hc. cbn beta iota.
    destruct (extract_int_token_value (to_upper units) "IG_").
    + rewrite Hnode. cbn beta iota. rewrite Hhw. reflexivity.
    + subst node. rewrite Hhw. reflexivity.
Qed.

Lemma usb_resolution_early_exit_keeps_record_witness :
  get_usb_info (fake_platform usb_no_hardware_ids_tree) 20 usb_start_dev = Ok (usb_start_dev, None).
Proof.
  destruct (usb_resolution_early_exit_keeps_record (fake_platform usb_no_hardware_ids_tree) 20
              usb_start_dev (utf16le "USB\VID_1234&PID_5678&MI_01\6&ABCDEF&0&0001" ++ [0; 0])
              (pattern_units "USB\VID_1234&PID_5678&MI_01\6&ABCDEF&0&0001" ++ [0]) 20)
    as [_ [_ H]].
  apply H; vm_compute; reflexivity.
Defined.

(** ** Bus classification *)

(** C1 (amended): when the compatible-id list's first matching entry is
    classified as Bluetooth LE, [get_internal_info] completes (unless a
    property fetch panics) with the bus type [Bluetooth], the value a
    Bluetooth classic device gets; the LE class only selects the LE
    resolver. *)
Theorem ble_classified_device_reports_bluetooth
    (pl : Platform) (interface_path : list Z) (dev : DeviceInfo)
    (device_id : list Z) (node dev_node : Z) (compatible_ids units : list Z)
    (Hid : get_device_interface_property pl interface_path DEVPKEY_Device_InstanceId
             DEVPROP_TYPE_STRING = Ok (Some device_id))
    (Hloc : cm_locate_devnode pl device_id = (CR_SUCCESS, node))
    (Hparent : get_dev_node_parent pl node = Some dev_node)
    (Hcompat : get_devnode_property pl dev_node DEVPKEY_Device_CompatibleIds
                 DEVPROP_TYPE_STRING_LIST = Ok (Some compatible_ids))
    (Hcast : cast_u16 compatible_ids = Ok units)
    (Hble : bus_of_compatible_ids units = IBluetoothLE) :
  forall dev' r, get_internal_info pl interface_path dev = Ok (dev', r) ->
    r = Some tt /\ bus_type dev' = Bluetooth.
Proof.
  intros dev' r E.
  cbv [get_internal_info bind try_opt lift modify ret discard] in E.
  rewrite Hid in E. cbn beta iota in E. rewrite Hloc, Hparent in E. cbn beta iota in E.
  rewrite Hcompat in E. cbn beta iota in E. rewrite Hcast in E. cbn beta iota in E.
  rewrite Hble in E.
  destruct (get_ble_info pl dev_node (set_bus_type (bus_type_of_internal IBluetoothLE) dev))
    as [[d1 r1]|] eqn:Eb; [|discriminate].
  injection E as <- <-. split; [reflexivity|].
  exact (get_ble_info_bus_type pl dev_node Bluetooth (set_bus_type Bluetooth dev) d1 r1 eq_refl Eb).
Qed.

Lemma ble_classified_device_reports_bluetooth_witness :
  exists dev', get_internal_info (fake_platform ble_tree) hid_interface_path usb_start_dev
               = Ok (dev', Some tt) /\ bus_type dev' = Bluetooth.
Proof.
  destruct (get_internal_info (fake_platform ble_tree) hid_interface_path usb_start_dev)
    as [[d' r]|] eqn:E; [| vm_compute in E; discriminate].
  destruct (ble_classified_device_reports_bluetooth (fake_platform ble_tree) hid_interface_path
              usb_start_dev
              (utf16le "HID\VID_1234&PID_5678&MI_01\7&1A2B&0&0000" ++ [0; 0]) 10 20
              (snd (prop_string_list ["BTHLEDEVICE\{00001812-0000-1000-8000-00805F9B34FB}"]%string))
              (cast_u16_aux (snd (prop_string_list ["BTHLEDEVICE\{00001812-0000-1000-8000-00805F9B34FB}"]%string))))
    with (dev' := d') (r := r) as [Hr Hb];
    [vm_compute; reflexivity .. | exact E |].
  subst r. exists d'. split; [reflexivity | exact Hb].
Defined.

(* ------------------------------------------------------------------ *)
(** ** Segments, strings and the device wrappers *)

(** ** Segments *)

Lemma split_zero_aux_cons (cur l : list Z) :
  exists t, split_zero_aux cur l = (rev cur ++ take_until (fun c => c =? 0) l) :: t.
Proof.
  revert cur. induction l as [|c r IH]; intros cur; simpl.
  - exists []. rewrite app_nil_r. reflexivity.
  - destruct (c =? 0) eqn:Ec.
    + exists (split_zero_aux [] r). rewrite app_nil_r. reflexivity.
    + destruct (IH (c :: cur)) as [t Ht]. exists t. rewrite Ht. simpl.
      rewrite <- app_assoc. reflexivity.
Qed.

Lemma split_zero_aux_join (l cur : list Z) :
  join_zero (split_zero_aux cur l) = rev cur ++ l.
Proof.
  revert cur. induction l as [|c r IH]; intros cur; simpl.
  - rewrite app_nil_r. reflexivity.
  - destruct (c =? 0) eqn:Ec.
    + apply Z.eqb_eq in Ec. subst c.
      destruct (split_zero_aux_cons [] r) as [t Ht].
      change (join_zero (rev cur :: split_zero_aux [] r) = rev cur ++ 0 :: r).
      pose proof (IH []) as IH0. simpl in IH0.
      destruct (split_zero_aux [] r) as [|x t'] eqn:E; [discriminate|].
      change (rev cur ++ 0 :: join_zero (x :: t') = rev cur ++ 0 :: r). rewrite IH0. reflexivity.
    + rewrite IH. simpl. rewrite <- app_assoc. reflexivity.
Qed.

Lemma split_zero_aux_no_zero (l cur : list Z) :
  ~ In 0 cur -> Forall (fun s => ~ In 0 s) (split_zero_aux cur l).
Proof.
  revert cur. induction l as [|c r IH]; intros cur Hcur; simpl.
  - constructor; [rewrite <- in_rev; exact Hcur | constructor].
  - destruct (c =? 0) eqn:Ec.
    + constructor; [rewrite <- in_rev; exact Hcur | apply IH; simpl; tauto].
    + apply IH. simpl. intros [H|H]; [subst c; discriminate | contradiction].
Qed.

Lemma split_zero_aux_length (l cur : list Z) :
  length (split_zero_aux cur l) = S (count_occ Z.eq_dec l 0).
Proof.
  revert cur. induction l as [|c r IH]; intros cur; simpl; [reflexivity|].
  destruct (c =? 0) eqn:Ec; destruct (Z.eq_dec c 0) as [E|E];
    try (apply Z.eqb_eq in Ec; contradiction); try (subst c; discriminate);
    simpl; rewrite IH; reflexivity.
Qed.

(** [split(|c| *c == 0)] loses nothing: re-joining the segments with NUL
    gives back the slice, no segment contains a NUL, and there is one more
    segment than there are NULs (so a NUL-terminated list always ends with
    an empty segment). *)
Theorem split_zero_join_roundtrip (l : list Z) :
  join_zero (split_zero l) = l /\
  Forall (fun s => ~ In 0 s) (split_zero l) /\
  length (split_zero l) = S (count_occ Z.eq_dec l 0).
Proof.
  unfold split_zero. split; [apply split_zero_aux_join|].
  split; [apply split_zero_aux_no_zero; simpl; tauto | apply split_zero_aux_length].
Qed.

(** ** to_upper *)

(** [to_upper] changes exactly the units 'a'..'z' (the [u8] guard is
    subsumed), and is idempotent. *)
Theorem to_upper_ascii_letters_only (u16str : list Z) :
  to_upper u16str = map (fun c => if (97 <=? c) && (c <=? 122) then c - 32 else c) u16str /\
  to_upper (to_upper u16str) = to_upper u16str.
Proof.
  assert (Hf : forall l, to_upper l = map (fun c => if (97 <=? c) && (c <=? 122) then c - 32 else c) l).
  { intros l. unfold to_upper. apply map_ext. intros c. unfold u8_to_ascii_uppercase.
    destruct (0 <=? c) eqn:E1, (c <=? 255) eqn:E2, (97 <=? c) eqn:E3, (c <=? 122) eqn:E4;
      simpl; try reflexivity; zbool; lia. }
  split; [apply Hf|]. rewrite !Hf, map_map. apply map_ext. intros c.
  destruct (97 <=? c) eqn:E3, (c <=? 122) eqn:E4; simpl; rewrite ?E3, ?E4; simpl;
    try reflexivity;
    destruct (97 <=? c - 32) eqn:E5, (c - 32 <=? 122) eqn:E6; simpl; try reflexivity; zbool; lia.
Qed.


Lemma length_resize (n : nat) (l : list Z) : length (resize n l) = n.
Proof. unfold resize. rewrite length_firstn, length_app, repeat_length. lia. Qed.

(** A successful two-phase property fetch passed the first-phase check
    (buffer-too-small status and the expected type) and returns exactly as
    many bytes as the size query announced. *)
Theorem property_fetch_exact_length (pl : Platform) (expected_property_type : Z) :
  (forall dev_node property_key cr property_type len v,
     cm_get_devnode_property_size pl dev_node property_key = (cr, property_type, len) ->
     get_devnode_property pl dev_node property_key expected_property_type = Ok (Some v) ->
     cr = CR_BUFFER_SMALL /\ property_type = expected_property_type /\ length v = Z.to_nat len) /\
  (forall interface_path property_key cr property_type len v,
     cm_get_device_interface_property_size pl interface_path property_key = (cr, property_type, len) ->
     get_device_interface_property pl interface_path property_key expected_property_type
       = Ok (Some v) ->
     cr = CR_BUFFER_SMALL /\ property_type = expected_property_type /\ length v = Z.to_nat len).
Proof.
  split; intros x k cr ty len v Hs E.
  - unfold get_devnode_property in E.
    destruct (cm_get_devnode_property pl x k len) as [[cr' len'] buf] eqn:Hf.
    rewrite Hs in E.
    destruct (cr_eqb cr CR_BUFFER_SMALL) eqn:Ecr; destruct (ty =? expected_property_type) eqn:Ety;
      simpl in E; try discriminate. rewrite Hf in E.
    destruct (len =? len'); simpl in E; try discriminate.
    destruct (cr_eqb cr' CR_SUCCESS); try discriminate.
    injection E as <-. apply cr_eqb_buffer_small in Ecr. apply Z.eqb_eq in Ety.
    split; [exact Ecr | split; [exact Ety | apply length_resize]].
  - unfold get_device_interface_property in E.
    destruct (cm_get_device_interface_property pl x k len) as [[cr' len'] buf] eqn:Hf.
    rewrite Hs in E.
    destruct (cr_eqb cr CR_BUFFER_SMALL) eqn:Ecr; destruct (ty =? expected_property_type) eqn:Ety;
      simpl in E; try discriminate. rewrite Hf in E.
    destruct (len =? len'); simpl in E; try discriminate.
    destruct (cr_eqb cr' CR_SUCCESS); try discriminate.
    injection E as <-. apply cr_eqb_buffer_small in Ecr. apply Z.eqb_eq in Ety.
    split; [exact Ecr | split; [exact Ety | apply length_resize]].
Qed.

(** [get_devnode_property] panics exactly when the first phase is accepted
    and the second call reports a length different from the first. *)
Theorem property_fetch_panics_on_length_change (pl : Platform) (dev_node : Z)
    (property_key : PropKey) (expected_property_type : Z) :
  get_devnode_property pl dev_node property_key expected_property_type = Panicked <->
  exists len cr len' buf,
    cm_get_devnode_property_size pl dev_node property_key
      = (CR_BUFFER_SMALL, expected_property_type, len) /\
    cm_get_devnode_property pl dev_node property_key len = (cr, len', buf) /\ len' <> len.
Proof.
  unfold get_devnode_property.
  destruct (cm_get_devnode_property_size pl dev_node property_key) as [[cr ty] len] eqn:Hs.
  split.
  - destruct (cr_eqb cr CR_BUFFER_SMALL) eqn:Ecr; destruct (ty =? expected_property_type) eqn:Ety;
      simpl; try discriminate.
    destruct (cm_get_devnode_property pl dev_node property_key len) as [[cr' len'] buf] eqn:Hf.
    destruct (len =? len') eqn:El; simpl; [destruct (cr_eqb cr' CR_SUCCESS); discriminate|].
    intros _. apply cr_eqb_buffer_small in Ecr. apply Z.eqb_eq in Ety. apply Z.eqb_neq in El.
    subst. exists len, cr', len', buf. repeat split; auto.
  - intros (len0 & cr' & len' & buf & Hs' & Hf & Hne).
    injection Hs' as -> -> ->. rewrite Hf. cbn. rewrite Z.eqb_refl.
    replace (len0 =? len') with false by (symmetry; apply Z.eqb_neq; auto). reflexivity.
Qed.

(** ** read_string *)

Lemma take_until_no_zero (l : list Z) : ~ In 0 (take_until (fun c => c =? 0) l).
Proof.
  induction l as [|c r IH]; simpl; [tauto|].
  destruct (c =? 0) eqn:E; simpl; [tauto|].
  intros [H|H]; [subst c; discriminate | contradiction].
Qed.

Lemma take_until_length (p : Z -> bool) (l : list Z) : (length (take_until p l) <= length l)%nat.
Proof. induction l as [|c r IH]; simpl; [lia|]. destruct (p c); simpl; lia. Qed.

(** [read_string] never gives [None]: on success it decodes the units
    before the first NUL of the 256-unit buffer (so the result holds no NUL
    and at most 256 units), and on failure it is the empty string. *)
Theorem read_string_first_segment (func : Z -> bool * list Z) (handle : Z) :
  read_string func handle <> WNone /\
  ~ In 0 (wstring_units (read_string func handle)) /\
  (length (wstring_units (read_string func handle)) <= 256)%nat /\
  wstring_units (read_string func handle) =
    (if fst (func handle) then take_until (fun c => c =? 0) (resize 256 (snd (func handle)))
     else []).
Proof.
  unfold read_string. destruct (func handle) as [ok written]. simpl.
  destruct ok; [|repeat split; simpl; [discriminate | tauto | lia]].
  unfold split_zero. destruct (split_zero_aux_cons [] (resize 256 written)) as [t Ht].
  rewrite Ht. simpl.
  assert (Hw : wstring_units (u16str_to_wstring (take_until (fun c => c =? 0) (resize 256 written)))
               = take_until (fun c => c =? 0) (resize 256 written)).
  { unfold u16str_to_wstring. destruct valid_utf16; reflexivity. }
  rewrite Hw. repeat split.
  - unfold u16str_to_wstring. destruct valid_utf16; discriminate.
  - apply take_until_no_zero.
  - pose proof (take_until_length (fun c => c =? 0) (resize 256 written)) as Hl.
    rewrite length_resize in Hl. exact Hl.
Qed.


Lemma char_from_u32_u16 (c : Z) :
  0 <= c < 65536 -> char_from_u32 c = if is_surrogate c then None else Some c.
Proof.
  intros Hc. unfold char_from_u32, is_surrogate.
  destruct ((0xD800 <=? c) && (c <=? 0xDFFF)); simpl; [reflexivity|].
  replace (0x110000 <=? c) with false by (symmetry; apply Z.leb_gt; lia). reflexivity.
Qed.

Lemma wchar_loop_spec (mem char_vector raw_vector : list Z) (invalid_char : bool) :
  Forall (fun c => 0 <= c < 65536) mem ->
  wchar_loop mem char_vector raw_vector invalid_char =
    let s := take_until (fun c => c =? 0) mem in
    if invalid_char || existsb is_surrogate s then WRaw (raw_vector ++ s)
    else WString (char_vector ++ s).
Proof.
  revert char_vector raw_vector invalid_char.
  induction mem as [|c r IH]; intros cv rv inv Hu; cbn [wchar_loop take_until].
  - unfold wchar_finish. destruct inv; simpl; rewrite app_nil_r; reflexivity.
  - inversion Hu as [|? ? Hc Hr]; subst.
    destruct (c =? 0) eqn:Ec; simpl negb; cbv iota.
    + unfold wchar_finish. destruct inv; simpl; rewrite app_nil_r; reflexivity.
    + destruct inv; simpl negb; cbv iota.
      * rewrite (IH _ _ _ Hr). simpl. rewrite <- app_assoc. reflexivity.
      * rewrite (char_from_u32_u16 c Hc). destruct (is_surrogate c) eqn:Es.
        -- rewrite (IH _ _ _ Hr). simpl. rewrite Es, <- app_assoc. reflexivity.
        -- rewrite (IH _ _ _ Hr). simpl. rewrite Es, <- !app_assoc. simpl. reflexivity.
Qed.

(** [wchar_to_string] gives [None] for the null pointer; otherwise it reads
    up to the first NUL and gives the text when no unit is a surrogate, and
    the raw units otherwise, since [char::from_u32] rejects each surrogate
    on its own. *)
Theorem wchar_to_string_reads_to_nul (mem : list Z)
    (Hu16 : Forall (fun c => 0 <= c < 65536) mem) :
  wchar_to_string None = WNone /\
  wchar_to_string (Some mem) =
    (let s := take_until (fun c => c =? 0) mem in
     if existsb is_surrogate s then WRaw s else WString s).
Proof. split; [reflexivity|]. simpl. rewrite (wchar_loop_spec _ _ _ _ Hu16). reflexivity. Qed.

Lemma wchar_to_string_reads_to_nul_witness :
  Forall (fun c => 0 <= c < 65536) [0x48; 0xD83D; 0xDE00; 0; 0x41] /\
  wchar_to_string (Some [0x48; 0xD83D; 0xDE00; 0; 0x41]) = WRaw [0x48; 0xD83D; 0xDE00].
Proof.
  assert (H : Forall (fun c => 0 <= c < 65536) [0x48; 0xD83D; 0xDE00; 0; 0x41])
    by (repeat constructor; lia).
  split; [exact H|]. exact (proj2 (wchar_to_string_reads_to_nul _ H)).
Defined.

Lemma take_until_no_match (p : Z -> bool) (s rest : list Z) :
  forallb (fun c => negb (p c)) s = true -> take_until p (s ++ rest) = s ++ take_until p rest.
Proof.
  induction s as [|c r IH]; simpl; [reflexivity|].
  intros H. apply andb_prop in H as [H1 H2]. destruct (p c); [discriminate|].
  rewrite IH by exact H2. reflexivity.
Qed.

(** The two decoders disagree on text outside the Basic Multilingual
    Plane: [u16str_to_wstring] accepts valid surrogate pairs, while
    [wchar_to_string] gives the raw units, so an [hid_error] message holding
    such text makes [check_error] report [HidApiErrorEmpty]. *)
Theorem non_bmp_text_decoders_disagree (s : list Z)
    (Hvalid : valid_utf16 s = true) (Hsur : existsb is_surrogate s = true)
    (Hnonul : ~ In 0 s) (Hu16 : Forall (fun c => 0 <= c < 65536) s) :
  u16str_to_wstring s = WString s /\ wchar_to_string (Some (s ++ [0])) = WRaw s /\
  (forall f, hid_error f = Some (s ++ [0]) -> check_error f = HErr HidApiErrorEmpty).
Proof.
  split; [unfold u16str_to_wstring; rewrite Hvalid; reflexivity|].
  assert (Ht : take_until (fun c => c =? 0) (s ++ [0]) = s).
  { rewrite take_until_no_match; [simpl; apply app_nil_r|].
    apply forallb_forall. intros c Hc. destruct (c =? 0) eqn:E; [|reflexivity].
    apply Z.eqb_eq in E. subst c. contradiction. }
  assert (Hw : wchar_to_string (Some (s ++ [0])) = WRaw s).
  { simpl. rewrite wchar_loop_spec.
    - simpl. rewrite Ht, Hsur. reflexivity.
    - apply Forall_app. split; [exact Hu16 | repeat constructor; lia]. }
  split; [exact Hw|]. intros f Hf. unfold check_error. rewrite Hf, Hw. reflexivity.
Qed.

Lemma non_bmp_text_decoders_disagree_witness :
  u16str_to_wstring [0xD83D; 0xDE00] = WString [0xD83D; 0xDE00] /\
  wchar_to_string (Some ([0xD83D; 0xDE00] ++ [0])) = WRaw [0xD83D; 0xDE00] /\
  (forall f, hid_error f = Some ([0xD83D; 0xDE00] ++ [0]) -> check_error f = HErr HidApiErrorEmpty).
Proof.
  apply non_bmp_text_decoders_disagree;
    [vm_compute; reflexivity | vm_compute; reflexivity
    | simpl; intros [H|[H|H]]; [discriminate | discriminate | exact H]
    | repeat constructor; lia].
Defined.


Lemma i32_of_range (z : Z) : -2 ^ 31 <= i32_of z < 2 ^ 31.
Proof. unfold i32_of. pose proof (Z.mod_pos_bound (z + 2 ^ 31) (2 ^ 32) ltac:(lia)). lia. Qed.

(** [check_size] on a [c_int]: [-1] gives the [hid_error] message (or
    [HidApiErrorEmpty]), a non-negative value is returned as is, and any
    other negative value is returned as a success of size [2^64 + res]. *)
Theorem check_size_outcomes (f : HidFfi) (res : Z) (Hres : -2 ^ 31 <= res < 2 ^ 31) :
  (res = -1 -> check_size f res =
     HErr (match wchar_to_string (hid_error f) with
           | WString s => HidApiError s
           | _ => HidApiErrorEmpty
           end)) /\
  (0 <= res -> check_size f res = HOk res) /\
  (res < -1 -> check_size f res = HOk (2 ^ 64 + res)).
Proof.
  unfold check_size, check_error, usize_of_i32. split; [|split]; intros H.
  - subst res. simpl. destruct (wchar_to_string (hid_error f)); reflexivity.
  - replace (res =? -1) with false by (symmetry; apply Z.eqb_neq; lia).
    rewrite Z.mod_small by lia. reflexivity.
  - replace (res =? -1) with false by (symmetry; apply Z.eqb_neq; lia).
    f_equal. rewrite <- (Z.mod_add res 1 (2 ^ 64)) by lia.
    rewrite Z.mod_small by lia. lia.
Qed.

Lemma check_size_outcomes_witness :
  -2 ^ 31 <= -2 < 2 ^ 31 /\ check_size (ffi_with None (-2)) (-2) = HOk (2 ^ 64 - 2).
Proof.
  split; [lia|].
  destruct (check_size_outcomes (ffi_with None (-2)) (-2) ltac:(lia)) as [_ [_ H]].
  rewrite (H ltac:(lia)). reflexivity.
Defined.

(** [send_feature_report] and [write] reject empty data with
    [InvalidZeroSizeData]; otherwise [send_feature_report] succeeds exactly
    when the library reports the whole length sent, and a short
    non-negative count gives [IncompleteSendError { sent, all }]. *)
Theorem send_feature_report_outcomes (f : HidFfi) (data : list Z)
    (Hmax : Z.of_nat (length data) < 2 ^ 63) :
  (data = [] -> send_feature_report f data = HErr InvalidZeroSizeData /\
                write f data = HErr InvalidZeroSizeData) /\
  (data <> [] ->
     (send_feature_report f data = HOk tt <->
      i32_of (hid_send_feature_report f data) = Z.of_nat (length data)) /\
     (0 <= i32_of (hid_send_feature_report f data) ->
      i32_of (hid_send_feature_report f data) <> Z.of_nat (length data) ->
      send_feature_report f data =
        HErr (IncompleteSendError (i32_of (hid_send_feature_report f data))
                                  (Z.of_nat (length data))))).
Proof.
  split; [intros ->; split; reflexivity|]. intros Hne.
  pose proof (i32_of_range (hid_send_feature_report f data)) as Hr.
  set (res := i32_of (hid_send_feature_report f data)) in *.
  assert (Hlen : (0 < length data)%nat) by (destruct data; [contradiction | simpl; lia]).
  assert (Hsfr : send_feature_report f data =
                 match check_size f res with
                 | HErr e => HErr e
                 | HOk res => if negb (res =? Z.of_nat (length data))
                              then HErr (IncompleteSendError res (Z.of_nat (length data)))
                              else HOk tt
                 end) by (destruct data; [contradiction | reflexivity]).
  rewrite Hsfr. clearbody res.
  destruct (check_size_outcomes f res Hr) as [Hm1 [Hpos Hneg]].
  split.
  - split.
    + destruct (Z_lt_le_dec res (-1)) as [Hl|Hl].
      * rewrite (Hneg Hl).
        replace (2 ^ 64 + res =? Z.of_nat (length data)) with false
          by (symmetry; apply Z.eqb_neq; lia).
        cbn [negb]. discriminate.
      * destruct (Z.eq_dec res (-1)) as [E|E].
        -- rewrite (Hm1 E). discriminate.
        -- rewrite (Hpos ltac:(lia)).
           destruct (Z.eqb_spec res (Z.of_nat (length data))) as [E'|E'];
             cbn [negb]; [auto | discriminate].
    + intros E. rewrite (Hpos ltac:(lia)), E, Z.eqb_refl. reflexivity.
  - intros H0 Hne'. rewrite (Hpos H0).
    replace (res =? Z.of_nat (length data)) with false by (symmetry; apply Z.eqb_neq; exact Hne').
    reflexivity.
Qed.

Lemma send_feature_report_outcomes_witness :
  Z.of_nat (length [1; 2; 3]) < 2 ^ 63 /\
  send_feature_report (ffi_with None 2) [1; 2; 3] = HErr (IncompleteSendError 2 3).
Proof.
  split; [simpl; lia|].
  destruct (send_feature_report_outcomes (ffi_with None 2) [1; 2; 3] ltac:(simpl; lia))
    as [_ H].
  destruct (H ltac:(discriminate)) as [_ H2].
  exact (H2 ltac:(vm_compute; discriminate) ltac:(vm_compute; discriminate)).
Defined.


Ltac step_cases :=
  unfold hardware_id_step;
  repeat match goal with |- context [match ?x with _ => _ end] => destruct x end;
  reflexivity.

Lemma hardware_id_step_fields (d : DeviceInfo) (h : list Z) :
  path (hardware_id_step d h) = path d /\
  vendor_id (hardware_id_step d h) = vendor_id d /\
  product_id (hardware_id_step d h) = product_id d /\
  serial_number (hardware_id_step d h) = serial_number d /\
  manufacturer_string (hardware_id_step d h) = manufacturer_string d /\
  product_string (hardware_id_step d h) = product_string d /\
  usage_page (hardware_id_step d h) = usage_page d /\
  usage (hardware_id_step d h) = usage d /\
  bus_type (hardware_id_step d h) = bus_type d.
Proof. repeat split; step_cases. Qed.

Lemma scan_hardware_ids_fields (hs : list (list Z)) (d : DeviceInfo) :
  path (scan_hardware_ids hs d) = path d /\
  vendor_id (scan_hardware_ids hs d) = vendor_id d /\
  product_id (scan_hardware_ids hs d) = product_id d /\
  serial_number (scan_hardware_ids hs d) = serial_number d /\
  manufacturer_string (scan_hardware_ids hs d) = manufacturer_string d /\
  product_string (scan_hardware_ids hs d) = product_string d /\
  usage_page (scan_hardware_ids hs d) = usage_page d /\
  usage (scan_hardware_ids hs d) = usage d /\
  bus_type (scan_hardware_ids hs d) = bus_type d.
Proof.
  unfold scan_hardware_ids. revert d. induction hs as [|h hs IH]; intros d; [repeat split|].
  simpl. destruct (IH (hardware_id_step d h)) as (E1&E2&E3&E4&E5&E6&E7&E8&E9).
  destruct (hardware_id_step_fields d h) as (F1&F2&F3&F4&F5&F6&F7&F8&F9).
  repeat split; congruence.
Qed.

Lemma scan_hardware_ids_release_nonzero (hs : list (list Z)) (d : DeviceInfo) :
  release_number d <> 0 -> release_number (scan_hardware_ids hs d) = release_number d.
Proof.
  unfold scan_hardware_ids. revert d. induction hs as [|h hs IH]; intros d Hd; [reflexivity|].
  simpl. assert (E : release_number (hardware_id_step d h) = release_number d).
  { unfold hardware_id_step. replace (release_number d =? 0) with false
      by (symmetry; apply Z.eqb_neq; exact Hd).
    destruct (interface_number d =? -1); [destruct extract_int_token_value|]; reflexivity. }
  rewrite IH; congruence.
Qed.

Ltac scan_facts :=
  repeat match goal with
  | |- context [scan_hardware_ids ?hs ?d] =>
      let E := fresh "E" in
      destruct (scan_hardware_ids_fields hs d) as (?&?&?&?&?&?&?&?&?);
      generalize dependent (scan_hardware_ids hs d); intros
  end.

Ltac solve_keeps :=
  repeat match goal with H : keeps_identity _ _ |- _ => destruct H as (?&?&?&?&?&?&?&?) end;
  unfold keeps_identity;
  cbn [path vendor_id product_id serial_number manufacturer_string product_string usage_page
       usage set_serial_number set_manufacturer_string set_product_string set_interface_number
       set_bus_type set_release_number] in *;
  repeat split; try congruence; intros;
  repeat match goal with H : ?A -> _, H' : ?A |- _ => specialize (H H') end;
  congruence.

Lemma get_usb_info_keeps (pl : Platform) (dev_node : Z) (d0 : DeviceInfo) :
  triple (keeps_identity d0) (get_usb_info pl dev_node) (fun _ d => keeps_identity d0 d).
Proof.
  unfold get_usb_info. repeat triple_step; destruct_pre; scan_facts; solve_keeps.
Qed.

Lemma get_usb_info_nonzero_release (pl : Platform) (dev_node x : Z) (Hx : x <> 0) :
  triple (fun d => release_number d = x) (get_usb_info pl dev_node)
         (fun _ d => release_number d = x).
Proof.
  unfold get_usb_info. repeat triple_step; destruct_pre;
    cbn [release_number set_serial_number set_manufacturer_string set_interface_number] in *;
    try reflexivity; apply scan_hardware_ids_release_nonzero; assumption.
Qed.

Lemma get_usb_info_bus_type (pl : Platform) (dev_node : Z) (b : BusType) :
  triple (fun d => bus_type d = b) (get_usb_info pl dev_node) (fun _ d => bus_type d = b).
Proof.
  unfold get_usb_info. repeat triple_step; destruct_pre;
    cbn [bus_type set_serial_number set_manufacturer_string set_interface_number] in *;
    try reflexivity; apply scan_hardware_ids_fields.
Qed.

Lemma get_ble_info_keeps (pl : Platform) (dev_node : Z) (d0 : DeviceInfo) :
  triple (fun d => keeps_identity d0 d /\ release_number d = release_number d0 /\
                   interface_number d = interface_number d0 /\ bus_type d = bus_type d0)
         (get_ble_info pl dev_node)
         (fun r d => r = Some tt /\ keeps_identity d0 d /\ release_number d = release_number d0 /\
                     interface_number d = interface_number d0 /\ bus_type d = bus_type d0).
Proof.
  unfold get_ble_info. repeat triple_step; destruct_pre;
    (split; [reflexivity|]);
    cbn [release_number interface_number bus_type set_serial_number set_manufacturer_string
         set_product_string] in *;
    (split; [solve_keeps | repeat split; congruence]).
Qed.


Lemma triple_bind_discard {B} P R (Q : option B -> DeviceInfo -> Prop) (m : M unit)
    (k : unit -> M B) :
  triple P m (fun _ => R) -> triple R (k tt) Q -> triple P (bind (discard m) k) Q.
Proof.
  intros Hm Hk d d' r HP E. unfold bind, discard in E.
  destruct (m d) as [[d1 r1]|] eqn:Em; [|discriminate].
  exact (Hk d1 d' r (Hm d d1 r1 HP Em) E).
Qed.

Lemma triple_consequence {A} P P' (m : M A) Q Q' :
  triple P' m Q' -> (forall d, P d -> P' d) -> (forall r d, Q' r d -> Q r d) -> triple P m Q.
Proof. intros H HP HQ d d' r Hd E. exact (HQ r d' (H d d' r (HP d Hd) E)). Qed.

Lemma get_ble_info_keeps_identity (pl : Platform) (dev_node : Z) (d0 : DeviceInfo) :
  triple (keeps_identity d0) (get_ble_info pl dev_node) (fun _ d => keeps_identity d0 d).
Proof. unfold get_ble_info. repeat triple_step; destruct_pre; solve_keeps. Qed.

Lemma get_internal_info_keeps (pl : Platform) (interface_path : list Z) (d0 : DeviceInfo) :
  triple (keeps_identity d0) (get_internal_info pl interface_path)
         (fun _ d => keeps_identity d0 d).
Proof.
  unfold get_internal_info. repeat triple_step;
    try (eapply triple_bind_discard with (R := keeps_identity d0);
         [eapply triple_consequence;
          [first [apply (get_usb_info_keeps _ _ d0) | apply (get_ble_info_keeps_identity _ _ d0)]
          | intros ? ?; destruct_pre; solve_keeps | intros ? ? ?; assumption]
         | apply triple_ret; intros ? ?; assumption]);
    destruct_pre; solve_keeps.
Qed.

Lemma get_internal_info_none_unchanged (pl : Platform) (interface_path : list Z) (d0 : DeviceInfo) :
  triple (fun d => d = d0) (get_internal_info pl interface_path) (fun r d => r = None -> d = d0).
Proof.
  unfold get_internal_info. repeat triple_step;
    try (eapply triple_bind_discard with (R := fun _ => True);
         [intros ? ? ? ? ?; exact I | apply triple_ret; intros ? ? ?; discriminate]);
    destruct_pre; intros; first [reflexivity | discriminate].
Qed.


Lemma keeps_identity_refl (d : DeviceInfo) : keeps_identity d d.
Proof. repeat split; auto. Qed.

(** Whenever [get_internal_info] returns [None] the record is unchanged:
    every early exit happens before the bus type is written, and after it
    the resolvers' results are dropped. *)
Theorem internal_info_none_leaves_record (pl : Platform) (interface_path : list Z)
    (dev dev' : DeviceInfo) (H : get_internal_info pl interface_path dev = Ok (dev', None)) :
  dev' = dev.
Proof. exact (get_internal_info_none_unchanged pl interface_path dev dev dev' None eq_refl H eq_refl). Qed.

Lemma internal_info_none_leaves_record_witness :
  get_internal_info (fake_platform {| ft_interface_props := []; ft_devnode_props := [];
                                      ft_devnodes := []; ft_parents := [] |})
                    hid_interface_path usb_start_dev = Ok (usb_start_dev, None).
Proof.
  destruct (get_internal_info (fake_platform {| ft_interface_props := []; ft_devnode_props := [];
                                                ft_devnodes := []; ft_parents := [] |})
              hid_interface_path usb_start_dev) as [[d' r]|] eqn:E;
    [| vm_compute in E; discriminate].
  destruct r as [[]|]; [vm_compute in E; discriminate|].
  rewrite (internal_info_none_leaves_record _ _ _ _ E). reflexivity.
Defined.

(** For a device classified as Bluetooth classic, I2C, SPI or unknown,
    [get_internal_info] only sets the bus type: no resolver runs, so the
    interface number and the strings stay as the fast path gave them. *)
Theorem internal_info_other_class_sets_only_bus
    (pl : Platform) (interface_path : list Z) (dev : DeviceInfo)
    (device_id : list Z) (node dev_node : Z) (compatible_ids units : list Z)
    (Hid : get_device_interface_property pl interface_path DEVPKEY_Device_InstanceId
             DEVPROP_TYPE_STRING = Ok (Some device_id))
    (Hloc : cm_locate_devnode pl device_id = (CR_SUCCESS, node))
    (Hparent : get_dev_node_parent pl node = Some dev_node)
    (Hcompat : get_devnode_property pl dev_node DEVPKEY_Device_CompatibleIds
                 DEVPROP_TYPE_STRING_LIST = Ok (Some compatible_ids))
    (Hcast : cast_u16 compatible_ids = Ok units)
    (Husb : bus_of_compatible_ids units <> IUsb)
    (Hble : bus_of_compatible_ids units <> IBluetoothLE) :
  get_internal_info pl interface_path dev
    = Ok (set_bus_type (bus_type_of_internal (bus_of_compatible_ids units)) dev, Some tt).
Proof.
  cbv [get_internal_info bind try_opt lift modify ret discard].
  rewrite Hid. cbn beta iota. rewrite Hloc, Hparent. cbn beta iota.
  rewrite Hcompat. cbn beta iota. rewrite Hcast. cbn beta iota.
  destruct (bus_of_compatible_ids units); try contradiction; reflexivity.
Qed.

Lemma internal_info_other_class_sets_only_bus_witness :
  get_internal_info (fake_platform bthenum_tree) hid_interface_path usb_start_dev
    = Ok (set_bus_type Bluetooth usb_start_dev, Some tt).
Proof.
  exact (internal_info_other_class_sets_only_bus (fake_platform bthenum_tree) hid_interface_path
           usb_start_dev
           (utf16le "HID\VID_1234&PID_5678&MI_01\7&1A2B&0&0000" ++ [0; 0]) 10 20
           (snd (prop_string_list ["BTHENUM\{00001124-0000-1000-8000-00805F9B34FB}"]%string))
           (cast_u16_aux (snd (prop_string_list ["BTHENUM\{00001124-0000-1000-8000-00805F9B34FB}"]%string)))
           ltac:(vm_compute; reflexivity) ltac:(vm_compute; reflexivity)
           ltac:(vm_compute; reflexivity) ltac:(vm_compute; reflexivity)
           ltac:(vm_compute; reflexivity) ltac:(vm_compute; discriminate)
           ltac:(vm_compute; discriminate)).
Defined.

(** The Bluetooth LE resolver always runs to its end and changes only
    strings that were empty: the release number, the interface number
    (so [-1] stays [-1]), the bus type, the fast-path identifiers and
    every non-empty string are kept. *)
Theorem ble_info_completes_and_keeps (pl : Platform) (dev_node : Z) (dev dev' : DeviceInfo)
    (r : option unit) (H : get_ble_info pl dev_node dev = Ok (dev', r)) :
  r = Some tt /\ keeps_identity dev dev' /\ release_number dev' = release_number dev /\
  interface_number dev' = interface_number dev /\ bus_type dev' = bus_type dev.
Proof.
  exact (get_ble_info_keeps pl dev_node dev dev dev' r
           (conj (keeps_identity_refl dev) (conj eq_refl (conj eq_refl eq_refl))) H).
Qed.

Lemma ble_info_completes_and_keeps_witness :
  exists dev', get_ble_info (fake_platform ble_tree) 20 usb_start_dev = Ok (dev', Some tt) /\
               interface_number dev' = -1.
Proof.
  destruct (get_ble_info (fake_platform ble_tree) 20 usb_start_dev) as [[d' r]|] eqn:E;
    [| vm_compute in E; discriminate].
  destruct (ble_info_completes_and_keeps _ _ _ _ _ E) as (-> & _ & _ & Hi & _).
  exists d'. split; [reflexivity | exact Hi].
Defined.

(** The USB resolver keeps the fast-path identifiers, every non-empty
    string and the bus type, and never replaces a non-zero release number. *)
Theorem usb_info_keeps_identity_and_release (pl : Platform) (dev_node : Z)
    (dev dev' : DeviceInfo) (r : option unit) (H : get_usb_info pl dev_node dev = Ok (dev', r)) :
  keeps_identity dev dev' /\ bus_type dev' = bus_type dev /\
  (release_number dev <> 0 -> release_number dev' = release_number dev).
Proof.
  split; [exact (get_usb_info_keeps pl dev_node dev dev dev' r (keeps_identity_refl dev) H)|].
  split; [exact (get_usb_info_bus_type pl dev_node _ dev dev' r eq_refl H)|].
  intros Hr. exact (get_usb_info_nonzero_release pl dev_node _ Hr dev dev' r eq_refl H).
Qed.

Lemma usb_info_keeps_identity_and_release_witness :
  exists dev' r, get_usb_info (fake_platform usb_composite_tree) 20
                   (set_release_number 0x0200 usb_start_dev) = Ok (dev', r) /\
                 release_number dev' = 0x0200.
Proof.
  destruct (get_usb_info (fake_platform usb_composite_tree) 20
              (set_release_number 0x0200 usb_start_dev)) as [[d' r]|] eqn:E;
    [| vm_compute in E; discriminate].
  exists d', r. split; [reflexivity|].
  exact (proj2 (proj2 (usb_info_keeps_identity_and_release _ _ _ _ _ E)) ltac:(discriminate)).
Defined.

(** ** get_device_info *)

Lemma get_device_info_fields (pl : Platform) (interface_path : list Z) (fp : FastPath)
    (d : DeviceInfo) (H : get_device_info pl interface_path fp = Ok d) :
  path d = interface_path /\ vendor_id d = attrib_VendorID fp /\
  product_id d = attrib_ProductID fp /\ usage_page d = caps_UsagePage fp /\
  usage d = caps_Usage fp /\
  (wstring_is_empty (hid_manufacturer_string fp) = false ->
   manufacturer_string d = hid_manufacturer_string fp) /\
  (wstring_is_empty (hid_serial_number fp) = false -> serial_number d = hid_serial_number fp) /\
  (wstring_is_empty (hid_product_string fp) = false -> product_string d = hid_product_string fp).
Proof.
  unfold get_device_info in H. destruct (negb (valid_utf16 interface_path)); [discriminate|].
  destruct (existsb (fun c => c =? 0) interface_path); [discriminate|].
  match type of H with
  | match get_internal_info ?pl ?p ?d0 with _ => _ end = _ =>
      destruct (get_internal_info pl p d0) as [[d' r]|] eqn:E; [|discriminate];
      injection H as <-;
      exact (get_internal_info_keeps pl p d0 d0 d' r (keeps_identity_refl d0) E)
  end.
Qed.

(** A record [get_device_info] emits has the interface path, the vendor
    and product id read by [HidD_GetAttributes], the usage page and usage
    read by [HidP_GetCaps], and every fast-path string that was non-empty
    text. *)
Theorem device_info_keeps_fast_path (pl : Platform) (interface_path : list Z) (fp : FastPath)
    (d : DeviceInfo) (H : get_device_info pl interface_path fp = Ok d) :
  path d = interface_path /\ vendor_id d = attrib_VendorID fp /\
  product_id d = attrib_ProductID fp /\ usage_page d = caps_UsagePage fp /\
  usage d = caps_Usage fp /\
  (wstring_is_empty (hid_manufacturer_string fp) = false ->
   manufacturer_string d = hid_manufacturer_string fp) /\
  (wstring_is_empty (hid_serial_number fp) = false -> serial_number d = hid_serial_number fp) /\
  (wstring_is_empty (hid_product_string fp) = false -> product_string d = hid_product_string fp).
Proof. exact (get_device_info_fields pl interface_path fp d H). Qed.

Lemma device_info_keeps_fast_path_witness :
  exists d, get_device_info (fake_platform usb_composite_tree) hid_interface_path fp_with_serial
              = Ok d /\ serial_number d = WString (pattern_units "XYZ").
Proof.
  destruct (get_device_info (fake_platform usb_composite_tree) hid_interface_path fp_with_serial)
    as [d|] eqn:E; [| vm_compute in E; discriminate].
  exists d. split; [reflexivity|].
  destruct (device_info_keeps_fast_path _ _ _ _ E) as (_&_&_&_&_&_&Hs&_).
  exact (Hs eq_refl).
Defined.

(** When the interface path is valid UTF-16 without a NUL unit (so neither
    [unwrap] of line 125 panics) and the interface's instance id cannot be
    read, [get_device_info] returns the record built from the fast-path
    values, with interface number [-1] and bus type [Unknown]. *)
Theorem device_info_without_instance_id (pl : Platform) (interface_path : list Z)
    (fp : FastPath) (Hvalid : valid_utf16 interface_path = true)
    (Hnonul : existsb (fun c => c =? 0) interface_path = false)
    (Habsent : get_device_interface_property pl interface_path DEVPKEY_Device_InstanceId
                 DEVPROP_TYPE_STRING = Ok None) :
  get_device_info pl interface_path fp =
    Ok {| path := interface_path; vendor_id := attrib_VendorID fp;
          product_id := attrib_ProductID fp; serial_number := hid_serial_number fp;
          release_number := attrib_VersionNumber fp;
          manufacturer_string := hid_manufacturer_string fp;
          product_string := hid_product_string fp; usage_page := caps_UsagePage fp;
          usage := caps_Usage fp; interface_number := -1; bus_type := Unknown |}.
Proof.
  unfold get_device_info. rewrite Hvalid, Hnonul. cbn [negb].
  cbv [get_internal_info bind try_opt]. rewrite Habsent. reflexivity.
Qed.

Lemma device_info_without_instance_id_witness :
  get_device_info (fake_platform {| ft_interface_props := []; ft_devnode_props := [];
                                    ft_devnodes := []; ft_parents := [] |})
                  hid_interface_path fp_with_serial =
    Ok (mkDeviceInfo hid_interface_path 0x1234 0x5678 (WString (pattern_units "XYZ")) 0
                     empty_wstring empty_wstring 1 2 (-1) Unknown).
Proof.
  exact (device_info_without_instance_id
           (fake_platform {| ft_interface_props := []; ft_devnode_props := [];
                             ft_devnodes := []; ft_parents := [] |})
           hid_interface_path fp_with_serial
           ltac:(vm_compute; reflexivity) ltac:(vm_compute; reflexivity)
           ltac:(vm_compute; reflexivity)).
Defined.

(** Every record [get_device_info] returns for a handle whose
    [HidD_GetAttributes] failed has vendor and product id 0, and for a
    handle without preparsed data has usage page and usage 0. *)
Theorem device_info_failed_reads_zero (pl : Platform) (api : HidApi) (interface_path : list Z)
    (handle : Z) (d : DeviceInfo)
    (H : get_device_info pl interface_path (fast_path_of api handle) = Ok d) :
  (hidd_get_attributes api handle = None -> vendor_id d = 0 /\ product_id d = 0) /\
  (hidd_get_preparsed_data api handle = None -> usage_page d = 0 /\ usage d = 0).
Proof.
  destruct (get_device_info_fields _ _ _ _ H) as (_&Hv&Hp&Hu&Hu'&_).
  unfold fast_path_of in *.
  split; intros E; rewrite E in *;
    [destruct (hidd_get_preparsed_data api handle) as [pp|];
     [destruct (hidp_get_caps api pp)|]
    | destruct (hidd_get_attributes api handle) as [[[a b] c]|]];
    cbn in Hv, Hp, Hu, Hu'; split; assumption.
Qed.

Lemma device_info_failed_reads_zero_witness :
  exists d, get_device_info (fake_platform usb_composite_tree) hid_interface_path
              (fast_path_of {| create_file := fun _ _ => 7; hidd_get_attributes := fun _ => None;
                               hidd_get_preparsed_data := fun _ => None;
                               hidp_get_caps := fun _ => (1, 6);
                               hidd_get_serial_number_string := fun _ => (false, []);
                               hidd_get_manufacturer_string := fun _ => (false, []);
                               hidd_get_product_string := fun _ => (false, []) |} 7) = Ok d /\
            vendor_id d = 0 /\ usage_page d = 0.
Proof.
  match goal with |- exists d, get_device_info ?pl ?p (fast_path_of ?api ?h) = Ok d /\ _ =>
    destruct (get_device_info pl p (fast_path_of api h)) as [d|] eqn:E;
      [| vm_compute in E; discriminate];
    exists d; split; [reflexivity|];
    destruct (device_info_failed_reads_zero pl api p h d E) as [H1 H2];
    split; [exact (proj1 (H1 eq_refl)) | exact (proj1 (H2 eq_refl))]
  end.
Defined.

(** ** Enumeration *)


Lemma collect_devices_paths (pl : Platform) (api : HidApi) (segs : list (list Z))
    (acc ds : list DeviceInfo) :
  collect_devices pl api segs acc = Ok ds ->
  map path ds = map path acc ++ filter (opens api) segs.
Proof.
  revert acc. induction segs as [|s segs IH]; intros acc E; simpl in E |- *.
  - injection E as <-. rewrite app_nil_r. reflexivity.
  - unfold opens at 1. destruct (open_device api s false) as [h|].
    + destruct (get_device_info pl s (fast_path_of api h)) as [d|] eqn:Ed; [|discriminate].
      rewrite (IH _ E), map_app, <- app_assoc. simpl.
      rewrite (proj1 (get_device_info_fields _ _ _ _ Ed)). reflexivity.
    + exact (IH _ E).
Qed.

(** The enumeration emits one record per interface that opens, in the
    order of the interface list, with that interface's path; interfaces
    that do not open are skipped. *)
Theorem hid_device_info_vector_paths (pl : Platform) (api : HidApi) (interface_list : list Z)
    (ds : list DeviceInfo) (H : get_hid_device_info_vector pl api interface_list = Ok ds) :
  map path ds =
    filter (fun s => match open_device api s false with Some _ => true | None => false end)
           (split_zero interface_list).
Proof. exact (collect_devices_paths pl api _ [] ds H). Qed.

Lemma hid_device_info_vector_paths_witness :
  exists ds, get_hid_device_info_vector (fake_platform usb_composite_tree) fake_api
               one_interface_list = Ok ds /\ map path ds = [hid_interface_path].
Proof.
  destruct (get_hid_device_info_vector (fake_platform usb_composite_tree) fake_api
              one_interface_list) as [ds|] eqn:E; [| vm_compute in E; discriminate].
  exists ds. split; [reflexivity|].
  rewrite (hid_device_info_vector_paths _ _ _ _ E). vm_compute. reflexivity.
Defined.

Lemma collect_devices_none_open (pl : Platform) (api : HidApi) (segs : list (list Z))
    (acc : list DeviceInfo) :
  (forall s, In s segs -> open_device api s false = None) ->
  collect_devices pl api segs acc = Ok acc.
Proof.
  induction segs as [|s segs IH]; intros H; simpl; [reflexivity|].
  rewrite (H s (or_introl eq_refl)). apply IH. intros s' Hs'. apply H. right. exact Hs'.
Qed.

(** When no interface of the list opens (for instance the list of no
    interfaces, a single NUL, whose segments are empty paths), the
    enumeration gives the empty vector. *)
Theorem hid_device_info_vector_none_open (pl : Platform) (api : HidApi)
    (interface_list : list Z)
    (H : forall s, In s (split_zero interface_list) -> open_device api s false = None) :
  get_hid_device_info_vector pl api interface_list = Ok [].
Proof. exact (collect_devices_none_open pl api _ [] H). Qed.

Lemma hid_device_info_vector_none_open_witness :
  get_hid_device_info_vector (fake_platform usb_composite_tree) fake_api [0] = Ok [].
Proof.
  apply hid_device_info_vector_none_open.
  intros s Hs. simpl in Hs. destruct Hs as [<-|[<-|[]]]; reflexivity.
Defined.
